(** * Live trading engine (src/live_trading/engine.py): a shallow embedding

    The engine is Python code that talks to three collaborators it does not
    own: the strategy object, the Mini-QMT gateway (xttrader / xtdata and the
    order manager wrapped around it) and the clock.  The embedding keeps the
    engine's own control flow executable and threads one explicit state
    through it: the engine's attributes, the state of the collaborators, and
    the trace of everything the engine logged or called. *)

From Stdlib Require Import ZArith Lia QArith PrimFloat SpecFloat FloatOps FloatAxioms.
From stdpp Require Import gmap strings list.

Open Scope Z_scope.

(** ** Python values

    Market-data payloads, strategy signals and prices are untyped on the
    Python side; the engine inspects them with [is None], [==],
    [isinstance], [len] and indexing.  [float] is IEEE binary64, as in
    CPython. [VObject] stands for an instance of any other class, with the
    default [__eq__], [__bool__] and no [__len__] or [__getitem__]. *)
#[warnings="-register-all"]
Inductive pyval : Type :=
| VNone
| VBool (b : bool)
| VInt (z : Z)
| VFloat (f : float)
| VStr (s : string)
| VList (l : list pyval)
| VTuple (l : list pyval)
| VDict (d : list (pyval * pyval))
| VObject (cls : string).

(** Instances of [Exception] that the modelled operations raise;
    [OtherError] is any further [Exception] subclass a collaborator raises. *)
Inductive exn : Type :=
| TypeError
| ValueError
| KeyError
| IndexError
| AttributeError
| OverflowError
| ZeroDivisionError
| OtherError (name : string).

Inductive outcome (A : Type) : Type :=
| Ok (a : A)
| Raise (e : exn).
Arguments Ok {A} a.
Arguments Raise {A} e.

(** Numbers: [bool] is a subclass of [int]. *)
Inductive pynum : Type :=
| NInt (z : Z)
| NFloat (f : float).

Definition as_num (v : pyval) : option pynum :=
  match v with
  | VBool b => Some (NInt (Z.b2z b))
  | VInt z => Some (NInt z)
  | VFloat f => Some (NFloat f)
  | _ => None
  end.

(** *** Arithmetic of the numeric tower *)

(** Exact comparison of a float with an integer ([None] for NaN): CPython
    compares [int] and [float] by value, without rounding the integer. *)
Definition float_cmp_int (f : float) (z : Z) : option comparison :=
  match Prim2SF f with
  | S754_nan => None
  | S754_infinity s => Some (if s then Lt else Gt)
  | S754_zero _ => Some (0 ?= z)
  | S754_finite s m e =>
      let v := if s then Z.neg m else Z.pos m in
      Some (if 0 <=? e then Z.shiftl v e ?= z else v ?= Z.shiftl z (- e))
  end.

(** [a > b] on numbers. *)
Definition num_gtb (a b : pynum) : bool :=
  match a, b with
  | NInt x, NInt y => y <? x
  | NFloat x, NFloat y => PrimFloat.ltb y x
  | NFloat x, NInt y =>
      match float_cmp_int x y with Some Gt => true | _ => false end
  | NInt x, NFloat y =>
      match float_cmp_int y x with Some Lt => true | _ => false end
  end.

(** [float(z)] for an integer: round to nearest even, [OverflowError] when
    the integer is too large. *)
Definition int_to_float (z : Z) : outcome float :=
  let f := SF2Prim (binary_normalize prec emax z 0 false) in
  if is_infinity f then Raise OverflowError else Ok f.

(** [a / b] on integers: the correctly rounded quotient. *)
Definition int_truediv (a b : Z) : outcome float :=
  if b =? 0 then Raise ZeroDivisionError else
  let '(q, e, l) := SFdiv_core_binary prec emax (Z.abs a) 0 (Z.abs b) 0 in
  let f := SF2Prim (binary_round_aux prec emax (xorb (a <? 0) (b <? 0)) q e l) in
  if is_infinity f then Raise OverflowError else Ok f.

(** [int(f)]: truncation towards zero. *)
Definition float_to_int (f : float) : outcome Z :=
  match Prim2SF f with
  | S754_nan => Raise ValueError
  | S754_infinity _ => Raise OverflowError
  | S754_zero _ => Ok 0
  | S754_finite s m e =>
      let a := Z.shiftl (Z.pos m) e in
      Ok (if s then - a else a)
  end.

(** *** Operations on values, as the engine uses them *)

(** [v == z] for an integer literal [z]. *)
Definition eq_int (v : pyval) (z : Z) : bool :=
  match v with
  | VBool b => Z.b2z b =? z
  | VInt x => x =? z
  | VFloat f => match float_cmp_int f z with Some Eq => true | _ => false end
  | _ => false
  end.

(** [v == s] for a string literal [s]. *)
Definition eq_str (v : pyval) (s : string) : bool :=
  match v with
  | VStr t => String.eqb t s
  | _ => false
  end.

(** [v == []]. *)
Definition eq_empty_list (v : pyval) : bool :=
  match v with
  | VList [] => true
  | _ => false
  end.

Definition is_none (v : pyval) : bool :=
  match v with
  | VNone => true
  | _ => false
  end.

(** Truth value of [v], as [not v] and [if v] test it. *)
Definition truthy (v : pyval) : bool :=
  match v with
  | VNone => false
  | VBool b => b
  | VInt z => negb (z =? 0)
  | VFloat f => negb (PrimFloat.eqb f 0)
  | VStr s => negb (String.eqb s "")
  | VList l | VTuple l => negb (Nat.eqb (length l) 0)
  | VDict d => negb (Nat.eqb (length d) 0)
  | VObject _ => true
  end.

(** A [VStr] holds the UTF-8 encoding of a Python [str]. [len] and
    indexing of a [str] go by characters (code points), not by bytes: a
    character is a byte together with the continuation bytes (10xxxxxx)
    that follow it. *)
Definition is_continuation_byte (c : Ascii.ascii) : bool :=
  let n := Ascii.nat_of_ascii c in
  (128 <=? n)%nat && (n <? 192)%nat.

Fixpoint characters (s : string) : list string :=
  match s with
  | EmptyString => []
  | String c rest =>
      let chars := characters rest in
      match rest with
      | EmptyString => [String c EmptyString]
      | String c' _ =>
          if is_continuation_byte c' then
            match chars with
            | ch :: chars' => String c ch :: chars'
            | [] => [String c EmptyString]
            end
          else String c EmptyString :: chars
      end
  end.

(** [len(v)]. *)
Definition py_len (v : pyval) : outcome Z :=
  match v with
  | VStr s => Ok (Z.of_nat (length (characters s)))
  | VList l | VTuple l => Ok (Z.of_nat (length l))
  | VDict d => Ok (Z.of_nat (length d))
  | _ => Raise TypeError
  end.

(** [d.get(k)] and [d[k]] look a key up by [==]. *)
Definition dict_get_str (d : list (pyval * pyval)) (k : string) : option pyval :=
  snd <$> List.find (fun kv => eq_str (fst kv) k) d.

Definition dict_get_int (d : list (pyval * pyval)) (k : Z) : option pyval :=
  snd <$> List.find (fun kv => eq_int (fst kv) k) d.

(** [v[i]] for a non-negative literal index [i]. *)
Definition py_index (v : pyval) (i : nat) : outcome pyval :=
  match v with
  | VList l | VTuple l =>
      match l !! i with Some x => Ok x | None => Raise IndexError end
  | VStr s =>
      match characters s !! i with
      | Some ch => Ok (VStr ch)
      | None => Raise IndexError
      end
  | VDict d =>
      match dict_get_int d (Z.of_nat i) with
      | Some x => Ok x
      | None => Raise KeyError
      end
  | _ => Raise TypeError
  end.

(** [l[-1]]. *)
Definition py_last (l : list pyval) : outcome pyval :=
  match last l with
  | Some x => Ok x
  | None => Raise IndexError
  end.

(** [n > v] and [v > n] where one side is known to be a number: the other
    side must be a number too. *)
Definition num_gt_val (n : pynum) (v : pyval) : outcome bool :=
  match as_num v with
  | Some m => Ok (num_gtb n m)
  | None => Raise TypeError
  end.

Definition val_gt_num (v : pyval) (n : pynum) : outcome bool :=
  match as_num v with
  | Some m => Ok (num_gtb m n)
  | None => Raise TypeError
  end.

Fixpoint repeat_string (n : nat) (s : string) : string :=
  match n with
  | O => EmptyString
  | S n' => String.append s (repeat_string n' s)
  end.

Fixpoint repeat_list {A} (n : nat) (l : list A) : list A :=
  match n with
  | O => []
  | S n' => l ++ repeat_list n' l
  end.

(** [v * k] for an integer literal [k]. *)
Definition py_mul_int (v : pyval) (k : Z) : outcome pyval :=
  match v with
  | VBool b => Ok (VInt (Z.b2z b * k))
  | VInt z => Ok (VInt (z * k))
  | VFloat f =>
      match int_to_float k with
      | Ok g => Ok (VFloat (f * g)%float)
      | Raise e => Raise e
      end
  | VStr s => Ok (VStr (repeat_string (Z.to_nat k) s))
  | VList l => Ok (VList (repeat_list (Z.to_nat k) l))
  | VTuple l => Ok (VTuple (repeat_list (Z.to_nat k) l))
  | _ => Raise TypeError
  end.

(** [v / k] for an integer literal [k]: true division, always a float. *)
Definition py_truediv_int (v : pyval) (k : Z) : outcome float :=
  match as_num v with
  | Some (NInt z) => int_truediv z k
  | Some (NFloat f) =>
      if k =? 0 then Raise ZeroDivisionError else
      match int_to_float k with
      | Ok g => Ok (f / g)%float
      | Raise e => Raise e
      end
  | None => Raise TypeError
  end.

(** ** Data the engine exchanges with its collaborators *)

(** A [datetime] is kept as the POSIX timestamp (in seconds) it was built
    from by [datetime.fromtimestamp]; the local time zone plays no role in
    the engine. *)
Inductive datetime : Type :=
| DateTime (posix : pynum).

(** The bar handed to [strategy.on_bar]: a dict with these six keys. *)
Record bar : Type := Bar {
  bar_datetime : datetime;
  bar_open : pyval;
  bar_high : pyval;
  bar_low : pyval;
  bar_close : pyval;
  bar_volume : pyval
}.

(** What the engine reads of a gateway position and of the account asset. *)
Record position : Type := Position {
  stock_code : string;
  volume : Z
}.

Record asset : Type := Asset {
  cash : pynum;
  market_value : pynum;
  total_asset : pynum
}.

(** ** Trace of observable effects *)

Inductive level : Type := Debug | Info | Warning | Error.

(** One constructor per logging statement of engine.py. *)
Inductive message : Type :=
| MsgInitStrategy
| MsgConnecting (account : string)
| MsgConnected
| MsgConnectionFailed (result : Z)
| MsgStarting
| MsgSubscribing (symbol period : string)
| MsgStopping
| MsgSkipEmpty (symbol : string) (data : pyval)
| MsgInvalidBarLength (symbol : string) (len : Z)
| MsgBar (symbol : string) (b : bar)
| MsgUnknownFormat (symbol : string) (data : pyval)
| MsgStrategyError (symbol : string) (e : exn)
| MsgTraceback (e : exn)
| MsgRawData (data : pyval)
| MsgSignal (symbol : string) (signal : pyval)
| MsgInsufficientCash (symbol : string) (cash : pynum) (cost : pyval)
| MsgNoPosition (symbol : string).

(** Log lines and calls that leave the engine, in program order. *)
Inductive event : Type :=
| Log (l : level) (m : message)
| EvTime
| EvSleep
| EvOnInit
| EvOnBar (b : bar)
| EvOnStop
| EvNewTrader (path : string) (session_id : Z)
| EvTraderStart
| EvTraderConnect
| EvTraderSubscribe (account : string)
| EvTraderStop
| EvSubscribeQuote (symbol period : string)
| EvGetPositions
| EvGetAsset
| EvBuy (symbol : string) (price : pyval) (qty : Z) (tag : string)
| EvSell (symbol : string) (price : pyval) (qty : Z) (tag : string).

Definition is_order (e : event) : bool :=
  match e with
  | EvBuy _ _ _ _ | EvSell _ _ _ _ => true
  | _ => false
  end.

Definition is_log (e : event) : bool :=
  match e with
  | Log _ _ => true
  | _ => false
  end.

Definition is_on_stop (e : event) : bool :=
  match e with
  | EvOnStop => true
  | _ => false
  end.

Definition is_on_bar (e : event) : bool :=
  match e with
  | EvOnBar _ => true
  | _ => false
  end.

(** Calls that reach the gateway: the trader session, the market-data
    subscription and the order manager. *)
Definition is_gateway (e : event) : bool :=
  match e with
  | EvNewTrader _ _ | EvTraderStart | EvTraderConnect | EvTraderSubscribe _
  | EvTraderStop | EvSubscribeQuote _ _ | EvGetPositions | EvGetAsset
  | EvBuy _ _ _ _ | EvSell _ _ _ _ => true
  | _ => false
  end.

(** ** Collaborators

    Parts of the Python runtime whose result depends on the platform: the
    grammar of [float(str)] and the range of timestamps that
    [datetime.fromtimestamp] accepts ([Some e]: it raises [e]). *)
Class PyRuntime : Type := {
  float_of_str : string -> option float;
  fromtimestamp_error : pynum -> option exn
}.

(** The strategy, the Mini-QMT gateway and the clock, over their joint
    state [X].  Every call may change that state and, where Python allows
    it, raise.  [time_sleep] answers [true] when a [KeyboardInterrupt]
    arrives during the sleep. *)
Class Collaborators (X : Type) : Type := {
  time_time : X -> outcome float * X;
  time_sleep : X -> outcome bool * X;
  on_init : X -> outcome unit * X;
  on_bar : bar -> X -> outcome pyval * X;
  on_stop : X -> outcome unit * X;
  trader_new : string -> Z -> X -> outcome unit * X;
  trader_start : X -> outcome unit * X;
  trader_connect : X -> outcome Z * X;
  trader_subscribe : string -> X -> outcome unit * X;
  trader_stop : X -> outcome unit * X;
  subscribe_quote : string -> string -> X -> outcome unit * X;
  get_positions : X -> outcome (list position) * X;
  get_asset : X -> outcome asset * X;
  buy : string -> pyval -> Z -> string -> X -> outcome unit * X;
  sell : string -> pyval -> Z -> string -> X -> outcome unit * X
}.

(** ** Engine state and the monad of engine code *)

(** Constructor arguments that never change. *)
Record config : Type := Config {
  account_id : string;
  mini_qmt_path : string;
  symbols : list string;
  period : string
}.

(** The attributes [__init__] sets to [None]/[False] and later code
    assigns ([xt_trader] and [order_manager] are [true] once they hold an
    object), with the collaborators' state and the trace. *)
Record engine (X : Type) : Type := Engine {
  world : X;
  trace : list event;
  xt_trader : bool;
  order_manager : bool;
  running : bool
}.
Arguments Engine {X} _ _ _ _ _.
Arguments world {X} _.
Arguments trace {X} _.
Arguments xt_trader {X} _.
Arguments order_manager {X} _.
Arguments running {X} _.

Definition set_world {X} (x : X) (s : engine X) : engine X :=
  Engine x (trace s) (xt_trader s) (order_manager s) (running s).
Definition add_event {X} (e : event) (s : engine X) : engine X :=
  Engine (world s) (trace s ++ [e]) (xt_trader s) (order_manager s) (running s).
Definition set_xt_trader {X} (b : bool) (s : engine X) : engine X :=
  Engine (world s) (trace s) b (order_manager s) (running s).
Definition set_order_manager {X} (b : bool) (s : engine X) : engine X :=
  Engine (world s) (trace s) (xt_trader s) b (running s).
Definition set_running {X} (b : bool) (s : engine X) : engine X :=
  Engine (world s) (trace s) (xt_trader s) (order_manager s) b.

(** State and exceptions: a computation returns or raises, and keeps the
    effects it had either way. *)
Definition M (X A : Type) : Type := engine X -> outcome A * engine X.

Definition ret {X A} (a : A) : M X A := fun s => (Ok a, s).

Definition bind {X A B} (m : M X A) (k : A -> M X B) : M X B :=
  fun s =>
    match m s with
    | (Ok a, s') => k a s'
    | (Raise e, s') => (Raise e, s')
    end.

Definition lift {X A} (r : outcome A) : M X A := fun s => (r, s).

Definition get {X} : M X (engine X) := fun s => (Ok s, s).

Definition modify {X} (f : engine X -> engine X) : M X unit :=
  fun s => (Ok tt, f s).

(** [try: m  except Exception as e: h e]. *)
Definition try_except {X A} (m : M X A) (h : exn -> M X A) : M X A :=
  fun s =>
    match m s with
    | (Ok a, s') => (Ok a, s')
    | (Raise e, s') => h e s'
    end.

Declare Scope eng_scope.
Delimit Scope eng_scope with eng.
Notation "'let!' x ':=' m 'in' k" := (bind m (fun x => k))
  (at level 10, x name, m at level 100, k at level 200) : eng_scope.
Notation "m '>>' k" := (bind m (fun _ => k))
  (at level 90, right associativity) : eng_scope.
Open Scope eng_scope.

Definition log {X} (l : level) (m : message) : M X unit :=
  modify (add_event (Log l m)).

(** A call to a collaborator: recorded, then answered by the collaborator. *)
Definition call {X A} (ev : event) (f : X -> outcome A * X) : M X A :=
  fun s =>
    let '(r, x) := f (world s) in
    (r, set_world x (add_event ev s)).

Fixpoint for_each {X A} (l : list A) (body : A -> M X unit) : M X unit :=
  match l with
  | [] => ret tt
  | a :: l' => body a >> for_each l' body
  end.

(** ** The engine (class LiveTradeEngine) *)

Section LiveTradeEngine.
Context {X : Type} {collab : Collaborators X} {runtime : PyRuntime}.
Variable cfg : config.

(** [__init__] *)
Definition init (x : X) : outcome unit * engine X :=
  (log Info MsgInitStrategy >> call EvOnInit on_init)
    (Engine x [] false false false).

(** [connect] *)
Definition connect : M X bool :=
  log Info (MsgConnecting (account_id cfg)) >>
  let! now := call EvTime time_time in
  let! session_id := lift (float_to_int now) in
  call (EvNewTrader (mini_qmt_path cfg) session_id)
       (trader_new (mini_qmt_path cfg) session_id) >>
  modify (set_xt_trader true) >>
  call EvTraderStart trader_start >>
  let! connect_result := call EvTraderConnect trader_connect in
  if connect_result =? 0 then
    log Info MsgConnected >>
    call (EvTraderSubscribe (account_id cfg))
         (trader_subscribe (account_id cfg)) >>
    modify (set_order_manager true) >>
    ret true
  else
    log Error (MsgConnectionFailed connect_result) >>
    ret false.

(** [stop] *)
Definition stop : M X unit :=
  modify (set_running false) >>
  log Info MsgStopping >>
  call EvOnStop on_stop >>
  let! self := get in
  if xt_trader self then call EvTraderStop trader_stop else ret tt.

(** [start], up to the keep-alive loop: [false] when it returned early
    because [connect] failed. *)
Definition start_setup : M X bool :=
  let! self := get in
  let! connected := (if xt_trader self then ret true else connect) in
  if negb connected then ret false else
  modify (set_running true) >>
  log Info MsgStarting >>
  for_each (symbols cfg) (fun symbol =>
    log Info (MsgSubscribing symbol (period cfg)) >>
    call (EvSubscribeQuote symbol (period cfg))
         (subscribe_quote symbol (period cfg))) >>
  ret true.

(** The keep-alive loop does not end by itself; [Waiting] is the engine
    still in the loop after [fuel] sleeps. *)
Inductive run : Type :=
| Returned (r : outcome unit) (s : engine X)
| Waiting (s : engine X).

Fixpoint keep_alive (fuel : nat) (s : engine X) : run :=
  if running s then
    match fuel with
    | O => Waiting s
    | S fuel' =>
        match call EvSleep time_sleep s with
        | (Ok false, s') => keep_alive fuel' s'
        | (Ok true, s') => let '(r, s'') := stop s' in Returned r s''
        | (Raise e, s') => Returned (Raise e) s'
        end
    end
  else Returned (Ok tt) s.

(** [start] *)
Definition start (fuel : nat) (s : engine X) : run :=
  match start_setup s with
  | (Ok true, s') => keep_alive fuel s'
  | (Ok false, s') => Returned (Ok tt) s'
  | (Raise e, s') => Returned (Raise e) s'
  end.

(** A method of [self.order_manager]: [AttributeError] while that
    attribute is still [None]. *)
Definition om_call {A} (ev : event) (f : X -> outcome A * X) : M X A :=
  let! self := get in
  if order_manager self then call ev f else lift (Raise AttributeError).

(** [{p.stock_code: p.volume for p in positions}]: a later position of
    the same code replaces an earlier one. *)
Definition position_map (positions : list position) : gmap string Z :=
  foldl (fun m p => <[stock_code p := volume p]> m) ∅ positions.

(** [_handle_signal] *)
Definition handle_signal (symbol : string) (signal price : pyval) : M X unit :=
  if eq_str signal "hold" then ret tt else
  log Info (MsgSignal symbol signal) >>
  let! positions := om_call EvGetPositions get_positions in
  let current_pos := default 0 (position_map positions !! symbol) in
  let! asset := om_call EvGetAsset get_asset in
  let available_cash := cash asset in
  if eq_str signal "buy" then
    let! cost := lift (py_mul_int price 100) in
    let! enough := lift (num_gt_val available_cash cost) in
    if enough then
      om_call (EvBuy symbol price 100 "LiveStrategy")
              (buy symbol price 100 "LiveStrategy")
    else
      log Warning (MsgInsufficientCash symbol available_cash cost)
  else if eq_str signal "sell" then
    if 0 <? current_pos then
      om_call (EvSell symbol price current_pos "LiveStrategy")
              (sell symbol price current_pos "LiveStrategy")
    else
      log Warning (MsgNoPosition symbol)
  else ret tt.

(** [float(v)] *)
Definition py_float (v : pyval) : outcome float :=
  match v with
  | VBool b => int_to_float (Z.b2z b)
  | VInt z => int_to_float z
  | VFloat f => Ok f
  | VStr s =>
      match float_of_str s with
      | Some f => Ok f
      | None => Raise ValueError
      end
  | _ => Raise TypeError
  end.

(** [datetime.fromtimestamp(v)] *)
Definition fromtimestamp (v : pyval) : outcome datetime :=
  match as_num v with
  | Some n =>
      match fromtimestamp_error n with
      | Some e => Raise e
      | None => Ok (DateTime n)
      end
  | None => Raise TypeError
  end.

Definition bind_outcome {A B} (r : outcome A) (k : A -> outcome B) : outcome B :=
  match r with
  | Ok a => k a
  | Raise e => Raise e
  end.

(** The ['datetime'] entry of a bar built from a list payload (line 169):
    [fromtimestamp(timestamp / 1000) if timestamp > 1e10 else
    fromtimestamp(timestamp)]. *)
Definition bar_datetime_of (timestamp : pyval) : outcome datetime :=
  bind_outcome (val_gt_num timestamp (NFloat 1e10)) (fun millis =>
    if millis then
      bind_outcome (py_truediv_int timestamp 1000) (fun t =>
        fromtimestamp (VFloat t))
    else fromtimestamp timestamp).

(** The ['datetime'] entry of a bar built from a tick payload (line 187):
    [fromtimestamp(tick_data.get('time', time.time() * 1000) / 1000)]. *)
Definition tick_datetime_of (tick : list (pyval * pyval)) (now : float)
  : outcome datetime :=
  let time := default (VFloat (now * 1000)%float) (dict_get_str tick "time") in
  bind_outcome (py_truediv_int time 1000) (fun t => fromtimestamp (VFloat t)).

(** [d.get(k)] with the default [None]. *)
Definition dict_get (d : list (pyval * pyval)) (k : string) : pyval :=
  default VNone (dict_get_str d k).

(** Lines 149-196 of [_on_market_data]: from the raw payload of one symbol
    to the bar and the current price, or [None] where the code says
    [continue]. *)
Definition normalize (symbol : string) (tick_data : pyval)
  : M X (option (bar * pyval)) :=
  if is_none tick_data || eq_int tick_data 0 || eq_empty_list tick_data then
    log Debug (MsgSkipEmpty symbol tick_data) >> ret None
  else
    match tick_data with
    | VList l =>
        if Nat.eqb (length l) 0 then ret None else
        let! latest_bar := lift (py_last l) in
        let! n := lift (py_len latest_bar) in
        if n <? 6 then
          log Warning (MsgInvalidBarLength symbol n) >> ret None
        else
          let! timestamp := lift (py_index latest_bar 0) in
          let! dt := lift (bar_datetime_of timestamp) in
          let! o := lift (bind_outcome (py_index latest_bar 1) py_float) in
          let! h := lift (bind_outcome (py_index latest_bar 2) py_float) in
          let! lo := lift (bind_outcome (py_index latest_bar 3) py_float) in
          let! c := lift (bind_outcome (py_index latest_bar 4) py_float) in
          let! v := lift (bind_outcome (py_index latest_bar 5) py_float) in
          let b := Bar dt (VFloat o) (VFloat h) (VFloat lo) (VFloat c) (VFloat v) in
          let current_price := bar_close b in
          log Info (MsgBar symbol b) >>
          ret (Some (b, current_price))
    | VDict d =>
        let current_price := dict_get d "lastPrice" in
        if negb (truthy current_price) then ret None else
        let! now := call EvTime time_time in
        let! dt := lift (tick_datetime_of d now) in
        let b := Bar dt (dict_get d "open") (dict_get d "high")
                     (dict_get d "low") current_price (dict_get d "volume") in
        ret (Some (b, current_price))
    | _ =>
        log Warning (MsgUnknownFormat symbol tick_data) >> ret None
    end.

(** The body of the [try] statement (lines 149-200). *)
Definition process_update (symbol : string) (tick_data : pyval) : M X unit :=
  let! r := normalize symbol tick_data in
  match r with
  | None => ret tt
  | Some (b, current_price) =>
      let! signal := call (EvOnBar b) (on_bar b) in
      handle_signal symbol signal current_price
  end.

(** The [except Exception] handler (lines 202-205). *)
Definition log_failure (symbol : string) (tick_data : pyval) (e : exn) : M X unit :=
  log Error (MsgStrategyError symbol e) >>
  log Error (MsgTraceback e) >>
  log Error (MsgRawData tick_data).

(** One iteration of the loop over [data.items()]. *)
Definition handle_update (symbol : string) (tick_data : pyval) : M X unit :=
  if bool_decide (symbol ∈ symbols cfg) then
    try_except (process_update symbol tick_data) (log_failure symbol tick_data)
  else ret tt.

(** [_on_market_data]; [data] lists the items of the dict in iteration
    order. *)
Definition on_market_data (data : list (string * pyval)) : M X unit :=
  for_each data (fun item => handle_update (fst item) (snd item)).

End LiveTradeEngine.

(** ** A scripted set of collaborators, for running the engine

    The gateway answers [connect] with a fixed result code and the reads
    with a fixed book; the strategy plays a script of answers, one per
    [on_bar], and says "hold" once the script is over; no interrupt ever
    arrives. *)
Module Script.

Record t : Type := Make {
  now : float;
  connect_result : Z;
  positions : list position;
  account : asset;
  answers : list (outcome pyval)
}.

Definition next_answer (x : t) : outcome pyval * t :=
  match answers x with
  | [] => (Ok (VStr "hold"), x)
  | r :: rest =>
      (r, Make (now x) (connect_result x) (positions x) (account x) rest)
  end.

#[export] Instance collaborators : Collaborators t := {
  time_time x := (Ok (now x), x);
  time_sleep x := (Ok false, x);
  on_init x := (Ok tt, x);
  on_bar _ x := next_answer x;
  on_stop x := (Ok tt, x);
  trader_new _ _ x := (Ok tt, x);
  trader_start x := (Ok tt, x);
  trader_connect x := (Ok (connect_result x), x);
  trader_subscribe _ x := (Ok tt, x);
  trader_stop x := (Ok tt, x);
  subscribe_quote _ _ x := (Ok tt, x);
  get_positions x := (Ok (positions x), x);
  get_asset x := (Ok (account x), x);
  buy _ _ _ _ x := (Ok tt, x);
  sell _ _ _ _ x := (Ok tt, x)
}.

(** A runtime in which every timestamp is in range; the payloads run here
    hold no strings to convert. *)
#[export] Instance runtime : PyRuntime := {
  float_of_str _ := None;
  fromtimestamp_error _ := None
}.

(** The configuration of run_rsi_live_510050.py. *)
Definition cfg : config :=
  Config "40688525" "userdata_mini" ["510050.SH"] "5m".

Definition book (cash_ : float) (held : list position) (script : list (outcome pyval)) : t :=
  Make 1700000000 0 held (Asset (NFloat cash_) (NInt 0) (NFloat cash_)) script.

(** An engine that has connected, and one fresh from [__init__]. *)
Definition connected (x : t) : engine t := Engine x [] true true false.
Definition fresh (x : t) : engine t := Engine x [] false false false.

(** A gateway that refuses the connection with result code 1. *)
Definition refusing : t :=
  Make 1700000000 1 [] (Asset (NFloat 0) (NInt 0) (NFloat 0)) [].

(** Two subscribed symbols. *)
Definition cfg2 : config :=
  Config "40688525" "userdata_mini" ["510050.SH"; "510300.SH"] "5m".

(** A list payload of one bar with the given timestamp, and a tick payload
    with the given [time]. *)
Definition bars (timestamp : pyval) : pyval :=
  VList [VList [timestamp; VFloat 3.25; VFloat 3.5; VFloat 3; VFloat 3;
                VInt 12000]].

Definition tick (time : pyval) : pyval :=
  VDict [(VStr "lastPrice", VFloat 3); (VStr "time", time)].

End Script.

(** ** Observations on a run *)

(** What an engine method added to the trace. *)
Definition events_since {X} (s s' : engine X) : list event :=
  drop (length (trace s)) (trace s').

Definition orders (t : list event) : list event := filter is_order t.

(** The engine once a signal is logged and both gateway reads of
    [_handle_signal] have returned. *)
Definition after_reads {X} (symbol : string) (signal : pyval) (x1 x2 : X)
  (s : engine X) : engine X :=
  set_world x2 (add_event EvGetAsset
    (set_world x1 (add_event EvGetPositions
      (add_event (Log Info (MsgSignal symbol signal)) s)))).

(** Lines 224-238 of [_handle_signal]: what follows the reads. *)
Definition decision {X} {collab : Collaborators X} (symbol : string)
  (signal price : pyval) (current_pos : Z) (available_cash : pynum) : M X unit :=
  if eq_str signal "buy" then
    let! cost := lift (py_mul_int price 100) in
    let! enough := lift (num_gt_val available_cash cost) in
    if enough then
      om_call (EvBuy symbol price 100 "LiveStrategy")
              (buy symbol price 100 "LiveStrategy")
    else
      log Warning (MsgInsufficientCash symbol available_cash cost)
  else if eq_str signal "sell" then
    if 0 <? current_pos then
      om_call (EvSell symbol price current_pos "LiveStrategy")
              (sell symbol price current_pos "LiveStrategy")
    else
      log Warning (MsgNoPosition symbol)
  else ret tt.

(** The buy rule in words: the cost is price times 100, and an order goes
    out when the cash is strictly greater than the cost. Written on the
    numbers themselves, without the engine's operations: two integers
    compare by the order of [Z], two floats by the IEEE-754 [<], and an
    integer compares with a float by exact value, the finite float
    [(-1)^s * m * 2^e] taken as a rational number. *)
Definition finite_value (s : bool) (m : positive) (e : Z) : Q :=
  let v := if s then Z.neg m else Z.pos m in
  if 0 <=? e then inject_Z (v * 2 ^ e) else Qmake v (Z.to_pos (2 ^ (- e))).

Definition float_lt_int (f : float) (z : Z) : Prop :=
  match Prim2SF f with
  | S754_nan => False
  | S754_infinity s => s = true
  | S754_zero _ => 0 < z
  | S754_finite s m e => (finite_value s m e < inject_Z z)%Q
  end.

Definition int_lt_float (z : Z) (f : float) : Prop :=
  match Prim2SF f with
  | S754_nan => False
  | S754_infinity s => s = false
  | S754_zero _ => z < 0
  | S754_finite s m e => (inject_Z z < finite_value s m e)%Q
  end.

Definition strictly_greater (a b : pynum) : Prop :=
  match a, b with
  | NInt x, NInt y => y < x
  | NFloat x, NFloat y => (y <? x)%float = true
  | NFloat x, NInt y => int_lt_float y x
  | NInt x, NFloat y => float_lt_int y x
  end.

Definition cost_of (price : pynum) : pynum :=
  match price with
  | NInt z => NInt (z * 100)
  | NFloat f => NFloat (f * 100)%float
  end.

(** A number as the Python value it is. *)
Definition num_val (n : pynum) : pyval :=
  match n with
  | NInt z => VInt z
  | NFloat f => VFloat f
  end.

(** The engine with further events on its trace and nothing else changed. *)
Definition add_events {X} (evs : list event) (s : engine X) : engine X :=
  Engine (world s) (trace s ++ evs) (xt_trader s) (order_manager s) (running s).

(** The payloads the market-data handler has to skip: [None], [0], the
    empty list, a list whose latest bar is a tuple (or list) of fewer than
    six fields, and any value that is neither a list nor a dict. *)
Definition short_bar (latest_bar : pyval) : bool :=
  match latest_bar with
  | VList fields | VTuple fields => (length fields <? 6)%nat
  | _ => false
  end.

Definition malformed (tick_data : pyval) : bool :=
  match tick_data with
  | VList l =>
      match last l with
      | None => true
      | Some latest_bar => short_bar latest_bar
      end
  | VDict _ => false
  | _ => true
  end.

(** The two readings of a timestamp: as seconds, it goes to
    [datetime.fromtimestamp] as it is; as milliseconds, it is divided by
    1000 first. *)
Definition read_as_seconds {runtime : PyRuntime} (timestamp : pyval)
  : outcome datetime :=
  fromtimestamp timestamp.

Definition read_as_millis {runtime : PyRuntime} (timestamp : pyval)
  : outcome datetime :=
  bind_outcome (py_truediv_int timestamp 1000) (fun t => fromtimestamp (VFloat t)).

(** What the [except] handler of [_on_market_data] logs. *)
Definition failure_log (symbol : string) (tick_data : pyval) (e : exn)
  : list event :=
  [Log Error (MsgStrategyError symbol e); Log Error (MsgTraceback e);
   Log Error (MsgRawData tick_data)].

(** The state a failed [connect] leaves: the trader object is assigned,
    the order manager is not. *)
Definition after_failed_connect {X} (cfg : config) (x : X)
  (session_id result : Z) (s : engine X) : engine X :=
  Engine x
    (trace s ++ [Log Info (MsgConnecting (account_id cfg)); EvTime;
                 EvNewTrader (mini_qmt_path cfg) session_id; EvTraderStart;
                 EvTraderConnect; Log Error (MsgConnectionFailed result)])
    true (order_manager s) (running s).

(** ** The runner script (run_rsi_live_510050.py) *)

(** The constants of the script's configuration block. *)
Definition MINI_QMT_PATH : string := "C:\国金QMT交易端模拟\userdata_mini".
Definition ACCOUNT_ID : string := "40688525".
Definition SYMBOL : string := "510050.SH".
Definition PERIOD : string := "5m".
Definition RSI_PERIOD : Z := 14.
Definition RSI_OVERBOUGHT : float := 70.
Definition RSI_OVERSOLD : float := 30.
Definition MARKET_OPEN_MORNING : string := "09:30".
Definition MARKET_CLOSE_MORNING : string := "11:30".
Definition MARKET_OPEN_AFTERNOON : string := "13:00".
Definition MARKET_CLOSE_AFTERNOON : string := "15:00".

(** The arguments [main] gives to [LiveTradeEngine]. *)
Definition runner_config : config :=
  Config ACCOUNT_ID MINI_QMT_PATH [SYMBOL] PERIOD.

(** [now.strftime("%H:%M")] for the hour and the minute of [now]. *)
Definition digit (n : nat) : Ascii.ascii := Ascii.ascii_of_nat (48 + n)%nat.

Definition two_digits (n : nat) : string :=
  String (digit (n / 10)%nat) (String (digit (n mod 10)%nat) EmptyString).

Definition strftime_HM (hour minute : nat) : string :=
  String.append (two_digits hour)
    (String (Ascii.ascii_of_nat 58) (two_digits minute)).

(** The two tests of [is_market_hours] on the formatted time; [<=] on
    [str] is the lexicographic order. *)
Definition in_market_hours (current_time : string) : bool :=
  if String.leb MARKET_OPEN_MORNING current_time
     && String.leb current_time MARKET_CLOSE_MORNING then true
  else if String.leb MARKET_OPEN_AFTERNOON current_time
          && String.leb current_time MARKET_CLOSE_AFTERNOON then true
  else false.

(** One constructor per logging statement of the script. *)
Inductive runner_message : Type :=
| RMsgRule
| RMsgStarted
| RMsgSymbol (symbol : string)
| RMsgPeriod (period : string)
| RMsgAccount (account : string)
| RMsgRsiConfig (period : Z) (overbought oversold : float)
| RMsgNotOpenYet (current_time : string) (wait_seconds : Z)
| RMsgLunchBreak (current_time : string) (wait_seconds : Z)
| RMsgClosed
| RMsgMarketOpen
| RMsgConnecting
| RMsgConnectedStarting
| RMsgConnectFailed
| RMsgFatal (e : exn)
| RMsgFatalTraceback (e : exn)
| RMsgEnded.

(** What the script itself logs and calls, in program order. *)
Inductive runner_event : Type :=
| RLog (l : level) (m : runner_message)
| RNow (hour minute : nat)
| RSleep (seconds : Z)
| RNewStrategy (period : Z) (overbought oversold : float).

(** What the script needs besides the engine's collaborators: the wall
    clock ([datetime.now()], read as hour and minute), [time.sleep] and
    the constructor of the strategy. *)
Class RunnerEnv (X : Type) : Type := {
  datetime_now : X -> (nat * nat) * X;
  runner_sleep : Z -> X -> X;
  new_strategy : Z -> float -> float -> X -> outcome unit * X
}.

Record runner (X : Type) : Type := Runner {
  r_world : X;
  r_log : list runner_event
}.
Arguments Runner {X} _ _.
Arguments r_world {X} _.
Arguments r_log {X} _.

Definition rlog {X} (l : level) (m : runner_message) (r : runner X) : runner X :=
  Runner (r_world r) (r_log r ++ [RLog l m]).

(** How [main] can end: still waiting for the market (out of fuel),
    returned because the market is closed, left by an exception of the
    strategy's constructor or of [LiveTradeEngine.__init__] (both outside
    the [try]), through the [finally] clause, or not at all (the engine is
    in its keep-alive loop). *)
Inductive main_result (X : Type) : Type :=
| StillWaiting (r : runner X)
| MarketClosed (r : runner X)
| SetupRaised (e : exn) (log : list runner_event)
| SessionEnded (log : list runner_event) (s : engine X)
| StillRunning (log : list runner_event) (s : engine X).
Arguments StillWaiting {X} _.
Arguments MarketClosed {X} _.
Arguments SetupRaised {X} _ _.
Arguments SessionEnded {X} _ _.
Arguments StillRunning {X} _ _.

Section Runner.
Context {X : Type} {collab : Collaborators X} {env : RunnerEnv X}.

(** [datetime.now().strftime("%H:%M")] *)
Definition now_HM (r : runner X) : string * runner X :=
  let '((hour, minute), x) := datetime_now (r_world r) in
  (strftime_HM hour minute, Runner x (r_log r ++ [RNow hour minute])).

(** [is_market_hours] *)
Definition is_market_hours (r : runner X) : bool * runner X :=
  let '(current_time, r') := now_HM r in
  (in_market_hours current_time, r').

(** [time.sleep(seconds)] *)
Definition rsleep (seconds : Z) (r : runner X) : runner X :=
  Runner (runner_sleep seconds (r_world r)) (r_log r ++ [RSleep seconds]).

(** [wait_for_market_open]; [None] while the loop has not ended after
    [fuel] rounds. *)
Fixpoint wait_for_market_open (fuel : nat) (r : runner X)
  : option bool * runner X :=
  match fuel with
  | O => (None, r)
  | S fuel' =>
      let '(open, r1) := is_market_hours r in
      if open then (Some true, r1) else
      let '(current_time, r2) := now_HM r1 in
      if String.ltb current_time MARKET_OPEN_MORNING then
        let wait_seconds := 30 in
        wait_for_market_open fuel'
          (rsleep wait_seconds
             (rlog Info (RMsgNotOpenYet current_time wait_seconds) r2))
      else if String.ltb MARKET_CLOSE_MORNING current_time
              && String.ltb current_time MARKET_OPEN_AFTERNOON then
        let wait_seconds := 60 in
        wait_for_market_open fuel'
          (rsleep wait_seconds
             (rlog Info (RMsgLunchBreak current_time wait_seconds) r2))
      else if String.ltb MARKET_CLOSE_AFTERNOON current_time then
        (Some false, rlog Info RMsgClosed r2)
      else wait_for_market_open fuel' r2
  end.

(** The lines [main] logs on entry. *)
Definition banner : list runner_event :=
  [RLog Info RMsgRule; RLog Info RMsgStarted; RLog Info (RMsgSymbol SYMBOL);
   RLog Info (RMsgPeriod PERIOD); RLog Info (RMsgAccount ACCOUNT_ID);
   RLog Info (RMsgRsiConfig RSI_PERIOD RSI_OVERBOUGHT RSI_OVERSOLD);
   RLog Info RMsgRule].

(** What the [except Exception] clause of [main] logs. *)
Definition fatal (e : exn) : list runner_event :=
  [RLog Error (RMsgFatal e); RLog Error (RMsgFatalTraceback e)].

(** [main]; [wait_fuel] bounds the wait for the market, [run_fuel] the
    engine's keep-alive loop. *)
Definition main (wait_fuel run_fuel : nat) (x : X) : main_result X :=
  match wait_for_market_open wait_fuel (Runner x banner) with
  | (None, r) => StillWaiting r
  | (Some false, r) => MarketClosed r
  | (Some true, r) =>
      let log1 :=
        r_log r ++ [RLog Info RMsgMarketOpen;
                    RNewStrategy RSI_PERIOD RSI_OVERBOUGHT RSI_OVERSOLD] in
      match new_strategy RSI_PERIOD RSI_OVERBOUGHT RSI_OVERSOLD (r_world r) with
      | (Raise e, _) => SetupRaised e log1
      | (Ok _, x1) =>
          match init x1 with
          | (Raise e, _) => SetupRaised e log1
          | (Ok _, engine) =>
              let log2 := log1 ++ [RLog Info RMsgConnecting] in
              match connect runner_config engine with
              | (Ok true, engine1) =>
                  let log3 := log2 ++ [RLog Info RMsgConnectedStarting] in
                  match start runner_config run_fuel engine1 with
                  | Waiting engine2 => StillRunning log3 engine2
                  | Returned (Ok _) engine2 =>
                      SessionEnded (log3 ++ [RLog Info RMsgEnded]) engine2
                  | Returned (Raise e) engine2 =>
                      SessionEnded (log3 ++ fatal e ++ [RLog Info RMsgEnded])
                                   engine2
                  end
              | (Ok false, engine1) =>
                  SessionEnded
                    (log2 ++ [RLog Error RMsgConnectFailed; RLog Info RMsgEnded])
                    engine1
              | (Raise e, engine1) =>
                  SessionEnded (log2 ++ fatal e ++ [RLog Info RMsgEnded]) engine1
              end
          end
      end
  end.

End Runner.

(** The minute of the day, and the two trading sessions in minutes:
    09:30-11:30 and 13:00-15:00, ends included. *)
Definition minute_of_day (hour minute : nat) : nat := (60 * hour + minute)%nat.

Definition trading_minute (t : nat) : Prop :=
  (570 <= t <= 690)%nat \/ (780 <= t <= 900)%nat.

(** The string tests of the script against the minute of the day, for
    one clock reading. *)
Definition clock_tests_agree (hour minute : nat) : bool :=
  let t := minute_of_day hour minute in
  let current_time := strftime_HM hour minute in
  Bool.eqb (in_market_hours current_time)
           ((570 <=? t)%nat && (t <=? 690)%nat || (780 <=? t)%nat && (t <=? 900)%nat)
  && Bool.eqb (String.ltb current_time MARKET_OPEN_MORNING) (t <? 570)%nat
  && Bool.eqb (String.ltb MARKET_CLOSE_MORNING current_time
               && String.ltb current_time MARKET_OPEN_AFTERNOON)
              ((690 <? t)%nat && (t <? 780)%nat)
  && Bool.eqb (String.ltb MARKET_CLOSE_AFTERNOON current_time) (900 <? t)%nat.

(** A pause of the wait loop: 30 or 60 seconds. *)
Definition pause_ok (e : runner_event) : Prop :=
  match e with
  | RSleep seconds => seconds = 30 \/ seconds = 60
  | _ => True
  end.

(** The engine [start] left behind, running or returned. *)
Definition run_state {X} (r : run (X := X)) : engine X :=
  match r with
  | Returned _ s => s
  | Waiting s => s
  end.

(** ** More scripted collaborators *)

Module Stage.

(** The scripted collaborators with a strategy that answers "hold" to
    every bar, and with a strategy whose [on_stop] raises. *)
Definition holding : Collaborators Script.t := {|
  time_time := @time_time _ Script.collaborators;
  time_sleep := @time_sleep _ Script.collaborators;
  on_init := @on_init _ Script.collaborators;
  on_bar _ x := (Ok (VStr "hold"), x);
  on_stop := @on_stop _ Script.collaborators;
  trader_new := @trader_new _ Script.collaborators;
  trader_start := @trader_start _ Script.collaborators;
  trader_connect := @trader_connect _ Script.collaborators;
  trader_subscribe := @trader_subscribe _ Script.collaborators;
  trader_stop := @trader_stop _ Script.collaborators;
  subscribe_quote := @subscribe_quote _ Script.collaborators;
  get_positions := @get_positions _ Script.collaborators;
  get_asset := @get_asset _ Script.collaborators;
  buy := @buy _ Script.collaborators;
  sell := @sell _ Script.collaborators
|}.

Definition failing_stop : Collaborators Script.t := {|
  time_time := @time_time _ Script.collaborators;
  time_sleep := @time_sleep _ Script.collaborators;
  on_init := @on_init _ Script.collaborators;
  on_bar := @on_bar _ Script.collaborators;
  on_stop x := (Raise (OtherError "on_stop"), x);
  trader_new := @trader_new _ Script.collaborators;
  trader_start := @trader_start _ Script.collaborators;
  trader_connect := @trader_connect _ Script.collaborators;
  trader_subscribe := @trader_subscribe _ Script.collaborators;
  trader_stop := @trader_stop _ Script.collaborators;
  subscribe_quote := @subscribe_quote _ Script.collaborators;
  get_positions := @get_positions _ Script.collaborators;
  get_asset := @get_asset _ Script.collaborators;
  buy := @buy _ Script.collaborators;
  sell := @sell _ Script.collaborators
|}.

End Stage.

(** A trading day for the runner script: the wall clock plays a list of
    readings (hour, minute), taken modulo 24 and 60, and shows 16:00 once
    the list is over; the engine's collaborators are the scripted ones. *)
Module Day.

Record t : Type := Make {
  readings : list (nat * nat);
  desk : Script.t
}.

Definition at_desk {A} (f : Script.t -> outcome A * Script.t) (d : t)
  : outcome A * t :=
  let '(r, k) := f (desk d) in (r, Make (readings d) k).

#[export] Instance clock : RunnerEnv t := {
  datetime_now d :=
    match readings d with
    | [] => ((16, 0)%nat, d)
    | (hour, minute) :: rest =>
        ((hour mod 24, minute mod 60)%nat, Make rest (desk d))
    end;
  runner_sleep _ d := d;
  new_strategy _ _ _ d := (Ok tt, d)
}.

#[export] Instance collaborators : Collaborators t := {
  time_time := at_desk (@time_time _ Script.collaborators);
  time_sleep := at_desk (@time_sleep _ Script.collaborators);
  on_init := at_desk (@on_init _ Script.collaborators);
  on_bar b := at_desk (@on_bar _ Script.collaborators b);
  on_stop := at_desk (@on_stop _ Script.collaborators);
  trader_new path session_id := at_desk (@trader_new _ Script.collaborators path session_id);
  trader_start := at_desk (@trader_start _ Script.collaborators);
  trader_connect := at_desk (@trader_connect _ Script.collaborators);
  trader_subscribe account := at_desk (@trader_subscribe _ Script.collaborators account);
  trader_stop := at_desk (@trader_stop _ Script.collaborators);
  subscribe_quote symbol per := at_desk (@subscribe_quote _ Script.collaborators symbol per);
  get_positions := at_desk (@get_positions _ Script.collaborators);
  get_asset := at_desk (@get_asset _ Script.collaborators);
  buy symbol price qty tag := at_desk (@buy _ Script.collaborators symbol price qty tag);
  sell symbol price qty tag := at_desk (@sell _ Script.collaborators symbol price qty tag)
}.

End Day.

(** ** Invariants of engine code *)

(** [m] leaves the engine's attributes alone and adds to the trace only
    events that satisfy [Q]. *)
Definition emits_only {X A} (Q : event -> bool) (m : M X A) : Prop :=
  forall s, exists x evs,
    snd (m s) =
      Engine x (trace s ++ evs) (xt_trader s) (order_manager s) (running s) /\
    Forall (fun e => Q e = true) evs.

(** Log lines and clock reads: neither the strategy nor the gateway is
    involved. *)
Definition is_quiet (e : event) : bool :=
  match e with
  | Log _ _ | EvTime => true
  | _ => false
  end.

Definition not_order (e : event) : bool := negb (is_order e).

Definition not_gateway (e : event) : bool := negb (is_gateway e).

(** The orders one signal for [symbol] can lead to: none, one buy of 100,
    or one sell of a positive quantity, tagged "LiveStrategy". *)
Definition signal_orders (symbol : string) (os : list event) : Prop :=
  os = [] \/
  (exists price, os = [EvBuy symbol price 100 "LiveStrategy"]) \/
  (exists price qty, 0 < qty /\ os = [EvSell symbol price qty "LiveStrategy"]).

(** An order event that the payload [data] can account for under [cfg]:
    its symbol is subscribed and occurs in the payload, a buy is for 100,
    a sell for a positive quantity. Other events pass. *)
Definition order_within (cfg : config) (data : list (string * pyval))
  (e : event) : Prop :=
  match e with
  | EvBuy symbol _ qty tag =>
      symbol ∈ symbols cfg /\ symbol ∈ map fst data /\
      qty = 100 /\ tag = "LiveStrategy"
  | EvSell symbol _ qty tag =>
      symbol ∈ symbols cfg /\ symbol ∈ map fst data /\
      0 < qty /\ tag = "LiveStrategy"
  | _ => True
  end.

(** The items of a payload whose symbol is subscribed. *)
Definition subscribed_items (cfg : config) (data : list (string * pyval))
  : list (string * pyval) :=
  filter (fun item => fst item ∈ symbols cfg) data.

(** * Properties *)

Lemma events_since_app {X} (s s' : engine X) (evs : list event) :
  trace s' = trace s ++ evs -> events_since s s' = evs.
Proof.
  intros Heq. unfold events_since. rewrite Heq.
  apply drop_app_length.
Qed.

(** Unfolds the attribute updates of a concrete engine record. *)
Ltac engine_simpl :=
  unfold set_world, add_event, add_events, set_xt_trader, set_order_manager,
    set_running;
  simpl.

(** ** Equations of the monad *)

Section MonadFacts.
Context {X : Type}.

Lemma bind_ok {A B} (m : M X A) (k : A -> M X B) s a s' :
  m s = (Ok a, s') -> bind m k s = k a s'.
Proof. intros Hm. unfold bind. now rewrite Hm. Qed.

Lemma call_eq {A} (ev : event) (f : X -> outcome A * X) s r x :
  f (world s) = (r, x) -> call ev f s = (r, set_world x (add_event ev s)).
Proof. intros Hf. unfold call. now rewrite Hf. Qed.

Lemma om_call_eq {A} (ev : event) (f : X -> outcome A * X) s r x :
  order_manager s = true -> f (world s) = (r, x) ->
  om_call ev f s = (r, set_world x (add_event ev s)).
Proof.
  intros Hom Hf. unfold om_call, bind, get. rewrite Hom.
  now apply call_eq.
Qed.

Lemma for_each_app {A} (l1 l2 : list A) (body : A -> M X unit) s :
  for_each (l1 ++ l2) body s =
  match for_each l1 body s with
  | (Ok _, s') => for_each l2 body s'
  | (Raise e, s') => (Raise e, s')
  end.
Proof.
  revert s. induction l1 as [|a l1 IH]; intros s; simpl.
  - reflexivity.
  - unfold bind. destruct (body a s) as [[[]|e] s1]; [apply IH | reflexivity].
Qed.
End MonadFacts.

(** ** The position map *)

Lemma position_map_snoc (ps : list position) (p : position) :
  position_map (ps ++ [p]) = <[stock_code p := volume p]> (position_map ps).
Proof. unfold position_map. now rewrite foldl_app. Qed.

(** X17. The position map built from the fetched positions (line 218) gives,
    for a symbol, the volume of the last position carrying its code, and
    nothing when no position carries it. *)
Theorem position_map_lookup (ps : list position) (symbol : string) :
  position_map ps !! symbol =
  volume <$> last (filter (fun p => stock_code p = symbol) ps).
Proof.
  induction ps as [|p ps IH] using rev_ind.
  - reflexivity.
  - rewrite position_map_snoc, filter_app.
    destruct (decide (stock_code p = symbol)) as [Heq|Hne].
    + rewrite filter_cons_True by exact Heq. rewrite filter_nil.
      rewrite last_snoc. simpl. subst symbol. apply lookup_insert_eq.
    + rewrite filter_cons_False by exact Hne. rewrite filter_nil, app_nil_r.
      rewrite lookup_insert_ne by exact Hne. exact IH.
Qed.


(** ** The decision handler *)

Section HandleSignal.
Context {X : Type} {collab : Collaborators X}.
Implicit Types (s : engine X) (symbol : string) (signal price : pyval).

Lemma after_reads_trace symbol signal x1 x2 s :
  trace (after_reads symbol signal x1 x2 s) =
  trace s ++ [Log Info (MsgSignal symbol signal); EvGetPositions; EvGetAsset].
Proof. simpl. now rewrite <- !app_assoc. Qed.

Lemma handle_signal_after_reads symbol signal price s ps a x1 x2 :
  eq_str signal "hold" = false ->
  order_manager s = true ->
  get_positions (world s) = (Ok ps, x1) ->
  get_asset x1 = (Ok a, x2) ->
  handle_signal symbol signal price s =
  decision symbol signal price (default 0 (position_map ps !! symbol)) (cash a)
           (after_reads symbol signal x1 x2 s).
Proof.
  intros Hhold Hom Hps Ha. unfold handle_signal. rewrite Hhold.
  erewrite bind_ok by reflexivity.
  erewrite bind_ok by (apply om_call_eq; [exact Hom | exact Hps]).
  erewrite bind_ok by (apply om_call_eq; [exact Hom | exact Ha]).
  reflexivity.
Qed.

(** X18. A signal that is neither "buy" nor "sell" never leads to an order
    call, whatever the gateway answers and even when the reads fail. *)
Theorem unrecognized_no_order symbol signal price s :
  eq_str signal "buy" = false ->
  eq_str signal "sell" = false ->
  exists evs,
    trace (snd (handle_signal symbol signal price s)) = trace s ++ evs /\
    orders evs = [].
Proof.
  intros Hbuy Hsell. unfold handle_signal.
  destruct (eq_str signal "hold").
  { exists []. simpl. now rewrite app_nil_r. }
  rewrite Hbuy, Hsell. unfold om_call, log, modify, get, call, lift, ret, bind.
  destruct s as [x t xt [|] r]; simpl.
  2:{ exists [Log Info (MsgSignal symbol signal)]. split; reflexivity. }
  destruct (get_positions x) as [[ps|e] x1]; simpl.
  2:{ exists [Log Info (MsgSignal symbol signal); EvGetPositions].
      split; [now rewrite <- app_assoc | reflexivity]. }
  destruct (get_asset x1) as [[a|e] x2]; simpl;
    exists [Log Info (MsgSignal symbol signal); EvGetPositions; EvGetAsset];
    (split; [now rewrite <- !app_assoc | reflexivity]).
Qed.
(** The decision only ever appends to the trace, and what it appends is
    at most one event. *)
Lemma decision_appends symbol signal price pos avail s :
  exists rest,
    trace (snd (decision symbol signal price pos avail s)) = trace s ++ rest.
Proof.
  unfold decision, om_call, log, modify, get, call, lift, ret, bind.
  destruct s as [x t xt om r].
  destruct (eq_str signal "buy").
  - destruct (py_mul_int price 100) as [cost|e]; simpl.
    2:{ exists []. now rewrite app_nil_r. }
    destruct (num_gt_val avail cost) as [[|]|e]; simpl.
    + destruct om; simpl.
      * destruct (buy symbol price 100 "LiveStrategy" x) as [r' x'].
        now eexists.
      * exists []. now rewrite app_nil_r.
    + now eexists.
    + exists []. now rewrite app_nil_r.
  - destruct (eq_str signal "sell"); simpl.
    2:{ exists []. now rewrite app_nil_r. }
    destruct (0 <? pos); simpl.
    + destruct om; simpl.
      * destruct (sell symbol price pos "LiveStrategy" x) as [r' x'].
        now eexists.
      * exists []. now rewrite app_nil_r.
    + now eexists.
Qed.

(** C9. For every hold signal the decision handler returns at once and
    leaves the engine as it found it: no gateway call (no position read,
    no asset read, no order), no log line, no attribute changed. *)
Theorem hold_has_no_effect symbol signal price s :
  eq_str signal "hold" = true ->
  handle_signal symbol signal price s = (Ok tt, s).
Proof.
  intros Hhold. unfold handle_signal. now rewrite Hhold.
Qed.

(** C10. For every signal other than "hold", also one outside
    {hold, buy, sell}, the handler first reads the positions and the
    asset from the gateway, and only then decides; for a signal that is
    neither "buy" nor "sell" it then returns, so the two reads are all it
    did at the gateway and no order is submitted. *)
Theorem other_signal_reads_then_decides symbol signal price s ps a x1 x2 :
  eq_str signal "hold" = false ->
  order_manager s = true ->
  get_positions (world s) = (Ok ps, x1) ->
  get_asset x1 = (Ok a, x2) ->
  (exists rest,
     trace (snd (handle_signal symbol signal price s)) =
     trace s ++ [Log Info (MsgSignal symbol signal); EvGetPositions; EvGetAsset]
             ++ rest) /\
  (eq_str signal "buy" = false -> eq_str signal "sell" = false ->
     handle_signal symbol signal price s =
       (Ok tt, after_reads symbol signal x1 x2 s) /\
     filter is_gateway
       (events_since s (snd (handle_signal symbol signal price s))) =
       [EvGetPositions; EvGetAsset] /\
     orders (events_since s (snd (handle_signal symbol signal price s))) = []).
Proof.
  intros Hhold Hom Hps Ha.
  rewrite (handle_signal_after_reads symbol signal price s ps a x1 x2)
    by assumption.
  split.
  - destruct (decision_appends symbol signal price
                (default 0 (position_map ps !! symbol)) (cash a)
                (after_reads symbol signal x1 x2 s)) as [rest Hrest].
    exists rest. rewrite Hrest, after_reads_trace.
    now rewrite <- app_assoc.
  - intros Hbuy Hsell. unfold decision. rewrite Hbuy, Hsell.
    unfold ret. simpl snd.
    rewrite (events_since_app s _ _ (after_reads_trace symbol signal x1 x2 s)).
    split; [reflexivity | split; reflexivity].
Qed.
Lemma eq_str_true (v : pyval) (t : string) : eq_str v t = true -> v = VStr t.
Proof.
  destruct v; simpl; try discriminate.
  intros Heq. apply String.eqb_eq in Heq. now subst.
Qed.

(** The engine's comparison and product against the rule in words. *)
Lemma finite_value_lt (sg : bool) (m : positive) (e z : Z) :
  (finite_value sg m e < inject_Z z)%Q <->
  (let v := if sg then Z.neg m else Z.pos m in
   if 0 <=? e then Z.shiftl v e ?= z else v ?= Z.shiftl z (- e)) = Lt.
Proof.
  unfold finite_value. cbv zeta.
  destruct (0 <=? e) eqn:He.
  - apply Z.leb_le in He. rewrite Z.shiftl_mul_pow2 by exact He.
    unfold Qlt, inject_Z. simpl Qnum. simpl Qden.
    rewrite !Z.mul_1_r. symmetry. apply Z.compare_lt_iff.
  - apply Z.leb_gt in He. rewrite Z.shiftl_mul_pow2 by lia.
    unfold Qlt, inject_Z. simpl Qnum. simpl Qden.
    rewrite Z2Pos.id by (apply Z.pow_pos_nonneg; lia).
    rewrite Z.mul_1_r. symmetry. apply Z.compare_lt_iff.
Qed.

Lemma finite_value_gt (sg : bool) (m : positive) (e z : Z) :
  (inject_Z z < finite_value sg m e)%Q <->
  (let v := if sg then Z.neg m else Z.pos m in
   if 0 <=? e then Z.shiftl v e ?= z else v ?= Z.shiftl z (- e)) = Gt.
Proof.
  unfold finite_value. cbv zeta.
  destruct (0 <=? e) eqn:He.
  - apply Z.leb_le in He. rewrite Z.shiftl_mul_pow2 by exact He.
    unfold Qlt, inject_Z. simpl Qnum. simpl Qden.
    rewrite !Z.mul_1_r. rewrite Z.compare_gt_iff. reflexivity.
  - apply Z.leb_gt in He. rewrite Z.shiftl_mul_pow2 by lia.
    unfold Qlt, inject_Z. simpl Qnum. simpl Qden.
    rewrite Z2Pos.id by (apply Z.pow_pos_nonneg; lia).
    rewrite Z.mul_1_r. rewrite Z.compare_gt_iff. reflexivity.
Qed.

Lemma float_cmp_int_lt f z : float_cmp_int f z = Some Lt <-> float_lt_int f z.
Proof.
  unfold float_cmp_int, float_lt_int.
  destruct (Prim2SF f) as [sz|si| |sg m e].
  - split; [intros [= H]; now apply Z.compare_lt_iff
           | intros H; f_equal; now apply Z.compare_lt_iff].
  - destruct si; split; congruence.
  - split; [discriminate | contradiction].
  - rewrite finite_value_lt. cbv zeta. split; [now intros [= ->] | now intros ->].
Qed.

Lemma float_cmp_int_gt f z : float_cmp_int f z = Some Gt <-> int_lt_float z f.
Proof.
  unfold float_cmp_int, int_lt_float.
  destruct (Prim2SF f) as [sz|si| |sg m e].
  - split; [intros [= H]; apply Z.compare_gt_iff; exact H
           | intros H; f_equal; now apply Z.compare_gt_iff].
  - destruct si; split; congruence.
  - split; [discriminate | contradiction].
  - rewrite finite_value_gt. cbv zeta. split; [now intros [= ->] | now intros ->].
Qed.

Lemma num_gtb_strict (a b : pynum) : num_gtb a b = true <-> strictly_greater a b.
Proof.
  destruct a as [x|x], b as [y|y]; simpl.
  - apply Z.ltb_lt.
  - rewrite <- float_cmp_int_lt.
    destruct (float_cmp_int y x) as [[]|]; split; congruence.
  - rewrite <- float_cmp_int_gt.
    destruct (float_cmp_int x y) as [[]|]; split; congruence.
  - reflexivity.
Qed.

Lemma float_ltb_irrefl (f : float) : (f <? f)%float = false.
Proof.
  rewrite ltb_spec. unfold SFltb, SFcompare.
  destruct (Prim2SF f) as [sz|si| |sg m e]; try reflexivity.
  - now destruct si.
  - rewrite Z.compare_refl. rewrite Pos.compare_cont_refl. now destruct sg.
Qed.

Lemma strictly_greater_irrefl (c : pynum) : ~ strictly_greater c c.
Proof.
  destruct c as [z|f]; simpl.
  - lia.
  - rewrite float_ltb_irrefl. discriminate.
Qed.

Lemma py_mul_int_cost (price : pyval) (p : pynum) :
  as_num price = Some p ->
  py_mul_int price 100 = Ok (num_val (cost_of p)).
Proof.
  destruct price; simpl; try discriminate; intros [= <-]; reflexivity.
Qed.

Lemma num_gt_val_num (a b : pynum) :
  num_gt_val a (num_val b) = Ok (num_gtb a b).
Proof. now destruct b. Qed.

(** C1. For every buy signal the engine submits exactly one order, of the
    fixed quantity 100 at the given price, if and only if the cash of the
    asset it has just fetched is strictly greater than price * 100; when it
    is not, no order is submitted and a warning is logged; in particular
    no order is submitted when the cash equals the cost. *)
Theorem buy_iff_cash_exceeds_cost symbol signal price s ps a x1 x2 p :
  eq_str signal "buy" = true ->
  order_manager s = true ->
  get_positions (world s) = (Ok ps, x1) ->
  get_asset x1 = (Ok a, x2) ->
  as_num price = Some p ->
  let cost := cost_of p in
  let s' := snd (handle_signal symbol signal price s) in
  trace s' = trace s ++ events_since s s' /\
  (orders (events_since s s') = [EvBuy symbol price 100 "LiveStrategy"]
     <-> strictly_greater (cash a) cost) /\
  (~ strictly_greater (cash a) cost ->
     orders (events_since s s') = [] /\
     Log Warning (MsgInsufficientCash symbol (cash a) (num_val cost))
       ∈ events_since s s') /\
  (cash a = cost -> orders (events_since s s') = []).
Proof.
  intros Hbuy Hom Hps Ha Hprice cost s'.
  apply eq_str_true in Hbuy. subst signal.
  pose proof (py_mul_int_cost price p Hprice) as Hcost. fold cost in Hcost.
  pose proof (num_gt_val_num (cash a) cost) as Henough.
  pose proof (num_gtb_strict (cash a) cost) as Hstrict.
  pose proof (strictly_greater_irrefl cost) as Hirrefl.
  destruct (num_gtb (cash a) cost) eqn:Hgt.
  - assert (Htrace : trace s' = trace s ++
              [Log Info (MsgSignal symbol (VStr "buy")); EvGetPositions;
               EvGetAsset; EvBuy symbol price 100 "LiveStrategy"]).
    { subst s'.
      rewrite (handle_signal_after_reads symbol (VStr "buy") price s ps a x1 x2)
        by (assumption || reflexivity).
      unfold decision. change (eq_str (VStr "buy") "buy") with true. cbv iota.
      erewrite bind_ok by (unfold lift; rewrite Hcost; reflexivity).
      erewrite bind_ok by (unfold lift; rewrite Henough; reflexivity).
      destruct (buy symbol price 100 "LiveStrategy" x2) as [r x3] eqn:Hcall.
      erewrite om_call_eq by (simpl; eassumption).
      simpl. now rewrite <- !app_assoc. }
    assert (Hyes : strictly_greater (cash a) cost) by now apply Hstrict.
    rewrite (events_since_app s s' _ Htrace).
    split; [exact Htrace|]. simpl.
    split; [split; [intros _; exact Hyes | reflexivity]|].
    split; [intros Hno; contradiction|].
    intros Heq. rewrite Heq in Hyes. contradiction.
  - assert (Htrace : trace s' = trace s ++
              [Log Info (MsgSignal symbol (VStr "buy")); EvGetPositions;
               EvGetAsset;
               Log Warning (MsgInsufficientCash symbol (cash a) (num_val cost))]).
    { subst s'.
      rewrite (handle_signal_after_reads symbol (VStr "buy") price s ps a x1 x2)
        by (assumption || reflexivity).
      unfold decision. change (eq_str (VStr "buy") "buy") with true. cbv iota.
      erewrite bind_ok by (unfold lift; rewrite Hcost; reflexivity).
      erewrite bind_ok by (unfold lift; rewrite Henough; reflexivity).
      simpl. now rewrite <- !app_assoc. }
    assert (Hno : ~ strictly_greater (cash a) cost).
    { intros Hyes. apply Hstrict in Hyes. discriminate. }
    rewrite (events_since_app s s' _ Htrace).
    split; [exact Htrace|]. simpl.
    split; [split; [discriminate | intros Hyes; contradiction]|].
    split; [|reflexivity].
    intros _. split; [reflexivity|].
    do 3 apply list_elem_of_further. apply list_elem_of_here.
Qed.

End HandleSignal.

(** ** The market-data handler *)

Section MarketData.
Context {X : Type} {collab : Collaborators X} {runtime : PyRuntime}.
Variable cfg : config.
Implicit Types (s : engine X) (symbol : string) (tick_data : pyval).

Lemma log_failure_eq symbol tick_data e s :
  log_failure symbol tick_data e s =
  (Ok tt, add_events (failure_log symbol tick_data e) s).
Proof.
  destruct s as [x t xt om r].
  unfold log_failure, failure_log, log, modify, bind, add_events, add_event.
  simpl. now rewrite <- !app_assoc.
Qed.

(** One iteration of the loop never raises. *)
Lemma handle_update_total symbol tick_data s :
  fst (handle_update cfg symbol tick_data s) = Ok tt.
Proof.
  unfold handle_update. case_bool_decide; [|reflexivity].
  unfold try_except.
  destruct (process_update symbol tick_data s) as [[[]|e] s1]; [reflexivity|].
  now rewrite log_failure_eq.
Qed.

(** The handler never raises, whatever the payload holds. *)
Lemma on_market_data_total (data : list (string * pyval)) s :
  fst (on_market_data cfg data s) = Ok tt.
Proof.
  unfold on_market_data. revert s.
  induction data as [|[symbol tick_data] data IH]; intros s; simpl.
  - reflexivity.
  - unfold bind.
    pose proof (handle_update_total symbol tick_data s) as Hupd.
    destruct (handle_update cfg symbol tick_data s) as [[[]|e] s1];
      simpl in Hupd; [apply IH | discriminate].
Qed.

Lemma on_market_data_cons symbol tick_data (rest : list (string * pyval)) s :
  on_market_data cfg ((symbol, tick_data) :: rest) s =
  on_market_data cfg rest (snd (handle_update cfg symbol tick_data s)).
Proof.
  unfold on_market_data. simpl. unfold bind.
  pose proof (handle_update_total symbol tick_data s) as Hupd.
  destruct (handle_update cfg symbol tick_data s) as [[[]|e] s1];
    simpl in Hupd; [reflexivity | discriminate].
Qed.

Lemma on_market_data_app (pre rest : list (string * pyval)) s :
  on_market_data cfg (pre ++ rest) s =
  on_market_data cfg rest (snd (on_market_data cfg pre s)).
Proof.
  unfold on_market_data. rewrite for_each_app.
  pose proof (on_market_data_total pre s) as Hpre. unfold on_market_data in Hpre.
  destruct (for_each pre _ s) as [[[]|e] s1];
    simpl in Hpre; [reflexivity | discriminate].
Qed.

Lemma add_events_nil s : add_events [] s = s.
Proof. destruct s. unfold add_events. simpl. now rewrite app_nil_r. Qed.

Lemma logs_hold_no_on_bar (logs : list event) :
  Forall (fun e => is_log e = true) logs -> filter is_on_bar logs = [].
Proof.
  induction 1 as [|e logs He _ IH]; [reflexivity|].
  destruct e; try discriminate He. simpl.
  rewrite filter_cons_False by (simpl; congruence). exact IH.
Qed.

Lemma short_bar_len (latest_bar : pyval) :
  short_bar latest_bar = true ->
  exists n, py_len latest_bar = Ok n /\ (n <? 6) = true.
Proof.
  destruct latest_bar as [| | | | |fields|fields| |]; simpl; try discriminate;
    intros Hlen; apply Nat.ltb_lt in Hlen;
    (eexists; split; [reflexivity | apply Z.ltb_lt; lia]).
Qed.

(** A malformed payload yields no bar: [normalize] answers [None] after at
    most one log line, and touches nothing else. *)
Lemma normalize_malformed symbol tick_data s :
  malformed tick_data = true ->
  exists logs,
    normalize symbol tick_data s = (Ok None, add_events logs s) /\
    Forall (fun e => is_log e = true) logs.
Proof.
  intros Hmal. unfold normalize.
  destruct (is_none tick_data || eq_int tick_data 0 || eq_empty_list tick_data)
    eqn:Hempty.
  { eexists. split; [reflexivity|]. repeat constructor. }
  destruct tick_data as [| | | | |l| | |]; simpl in Hmal; try discriminate;
    try (eexists; split; [reflexivity|]; repeat constructor).
  destruct l as [|x l]; [discriminate Hempty|].
  change (Nat.eqb (length (x :: l)) 0) with false. cbv iota.
  unfold py_last.
  destruct (last (x :: l)) as [latest_bar|] eqn:Hlast.
  2:{ apply last_None in Hlast. discriminate. }
  destruct (short_bar_len latest_bar Hmal) as (n & Hlen & Hn).
  unfold bind, lift, log, modify, ret. rewrite Hlen, Hn.
  eexists. split; [reflexivity|]. repeat constructor.
Qed.

(** C4. Every malformed payload - None, 0, the empty list, a latest bar of
    fewer than six fields, or a value that is neither a list nor a dict -
    is skipped: no bar is produced, the strategy is not invoked (the
    iteration adds log lines at most and leaves the collaborators and the
    engine's attributes alone), and the handler given a payload that
    contains it returns normally instead of raising. *)
Theorem malformed_payload_is_skipped symbol tick_data s :
  malformed tick_data = true ->
  (exists logs,
     normalize symbol tick_data s = (Ok None, add_events logs s) /\
     Forall (fun e => is_log e = true) logs) /\
  (exists logs,
     handle_update cfg symbol tick_data s = (Ok tt, add_events logs s) /\
     Forall (fun e => is_log e = true) logs /\
     filter is_on_bar logs = []) /\
  (forall (pre rest : list (string * pyval)) s0,
     fst (on_market_data cfg (pre ++ (symbol, tick_data) :: rest) s0) = Ok tt).
Proof.
  intros Hmal.
  destruct (normalize_malformed symbol tick_data s Hmal) as (logs & Hnorm & Hlogs).
  split; [now exists logs|]. split.
  - unfold handle_update. case_bool_decide.
    + exists logs. split; [|split; [exact Hlogs | now apply logs_hold_no_on_bar]].
      unfold try_except, process_update.
      erewrite bind_ok by exact Hnorm. reflexivity.
    + exists []. split; [now rewrite add_events_nil | split; [constructor | reflexivity]].
  - intros pre rest s0. apply on_market_data_total.
Qed.

Lemma bar_datetime_of_num (timestamp : pyval) (t : pynum) :
  as_num timestamp = Some t ->
  bar_datetime_of timestamp =
  if num_gtb t (NFloat 1e10) then read_as_millis timestamp
  else read_as_seconds timestamp.
Proof.
  intros Hnum. unfold bar_datetime_of, val_gt_num. rewrite Hnum. reflexivity.
Qed.

(** C5, as the code has it. For every list-shaped payload whose latest bar
    has its six fields, a timestamp strictly greater than 1e10 is read as
    milliseconds (the datetime comes from timestamp / 1000) and any other
    number is read as seconds (the datetime comes from the timestamp
    itself); the timestamp exactly 1e10, integer or float, is not greater
    than 1e10 and so is read as seconds. *)
Theorem list_timestamp_unit_by_strict_magnitude
  symbol (l : list pyval) latest_bar n timestamp t (o h lo c v : float) dt s :
  last l = Some latest_bar ->
  py_len latest_bar = Ok n -> 6 <= n ->
  py_index latest_bar 0 = Ok timestamp ->
  as_num timestamp = Some t ->
  bind_outcome (py_index latest_bar 1) py_float = Ok o ->
  bind_outcome (py_index latest_bar 2) py_float = Ok h ->
  bind_outcome (py_index latest_bar 3) py_float = Ok lo ->
  bind_outcome (py_index latest_bar 4) py_float = Ok c ->
  bind_outcome (py_index latest_bar 5) py_float = Ok v ->
  (if num_gtb t (NFloat 1e10) then read_as_millis timestamp
   else read_as_seconds timestamp) = Ok dt ->
  let b := Bar dt (VFloat o) (VFloat h) (VFloat lo) (VFloat c) (VFloat v) in
  normalize symbol (VList l) s =
    (Ok (Some (b, VFloat c)), add_events [Log Info (MsgBar symbol b)] s) /\
  num_gtb (NInt 10000000000) (NFloat 1e10) = false /\
  num_gtb (NFloat 1e10) (NFloat 1e10) = false.
Proof.
  intros Hlast Hlen Hn Hts Hnum Ho Hh Hlo Hc Hv Hdt b.
  split; [|split; reflexivity].
  unfold normalize.
  destruct l as [|x l]; [discriminate Hlast|].
  change (is_none (VList (x :: l)) || eq_int (VList (x :: l)) 0
          || eq_empty_list (VList (x :: l))) with false.
  change (Nat.eqb (length (x :: l)) 0) with false. cbv iota.
  unfold py_last. rewrite Hlast.
  erewrite bind_ok by reflexivity.
  erewrite bind_ok by (unfold lift; rewrite Hlen; reflexivity).
  replace (n <? 6) with false by (symmetry; apply Z.ltb_ge; lia).
  erewrite bind_ok by (unfold lift; rewrite Hts; reflexivity).
  rewrite (bar_datetime_of_num timestamp t Hnum), Hdt.
  erewrite bind_ok by reflexivity.
  erewrite bind_ok by (unfold lift; rewrite Ho; reflexivity).
  erewrite bind_ok by (unfold lift; rewrite Hh; reflexivity).
  erewrite bind_ok by (unfold lift; rewrite Hlo; reflexivity).
  erewrite bind_ok by (unfold lift; rewrite Hc; reflexivity).
  erewrite bind_ok by (unfold lift; rewrite Hv; reflexivity).
  reflexivity.
Qed.

(** X23. For every map-shaped (tick) payload that is not skipped, the
    time - the value under "time", or [time.time() * 1000] when the key is
    missing - is read as milliseconds whatever its magnitude: the datetime
    always comes from that value divided by 1000 (for a float [f], from the
    float quotient [f / 1000]). The magnitude test of the list branch is
    not made on ticks. *)
Theorem tick_time_always_read_as_millis
  symbol (d : list (pyval * pyval)) (now : float) x1 dt s :
  truthy (dict_get d "lastPrice") = true ->
  time_time (world s) = (Ok now, x1) ->
  read_as_millis (match dict_get_str d "time" with
                  | Some time => time
                  | None => VFloat (now * 1000)%float
                  end) = Ok dt ->
  normalize symbol (VDict d) s =
    (Ok (Some (Bar dt (dict_get d "open") (dict_get d "high") (dict_get d "low")
                   (dict_get d "lastPrice") (dict_get d "volume"),
               dict_get d "lastPrice")),
     set_world x1 (add_event EvTime s)) /\
  (forall f : float,
     read_as_millis (VFloat f) = fromtimestamp (VFloat (f / 1000)%float)).
Proof.
  intros Hprice Hnow Hdt. split; [|reflexivity]. unfold normalize.
  change (is_none (VDict d) || eq_int (VDict d) 0 || eq_empty_list (VDict d))
    with false. cbv iota.
  rewrite Hprice. change (negb true) with false. cbv iota.
  erewrite bind_ok by (apply call_eq; exact Hnow).
  unfold tick_datetime_of.
  destruct (dict_get_str d "time") as [time|]; simpl default;
    unfold read_as_millis in Hdt; rewrite Hdt;
    erewrite bind_ok by reflexivity; reflexivity.
Qed.

(** C7. When the processing of one symbol's update raises, anywhere between
    normalisation, the strategy and the decision, the exception is caught
    and logged (three error lines), the handler goes on with the updates
    that follow it in the same payload exactly as it processes any payload,
    from the state the failed update left, and it returns normally. *)
Theorem failed_update_is_isolated
  (pre rest : list (string * pyval)) symbol tick_data e s s1 :
  symbol ∈ symbols cfg ->
  process_update symbol tick_data (snd (on_market_data cfg pre s)) = (Raise e, s1) ->
  on_market_data cfg (pre ++ (symbol, tick_data) :: rest) s =
    on_market_data cfg rest (add_events (failure_log symbol tick_data e) s1) /\
  fst (on_market_data cfg (pre ++ (symbol, tick_data) :: rest) s) = Ok tt.
Proof.
  intros Hin Hraise. split; [|apply on_market_data_total].
  rewrite on_market_data_app, on_market_data_cons. f_equal.
  unfold handle_update. rewrite bool_decide_eq_true_2 by exact Hin.
  unfold try_except. rewrite Hraise. now rewrite log_failure_eq.
Qed.

End MarketData.

(** ** The session: connect, start, stop *)

Section Session.
Context {X : Type} {collab : Collaborators X}.
Variable cfg : config.
Implicit Types (s : engine X).

(** What one [stop] does when neither the strategy nor the gateway raises. *)
Lemma stop_returns s :
  (forall x, fst (on_stop x) = Ok tt) ->
  (forall x, fst (trader_stop x) = Ok tt) ->
  exists x',
    stop s =
    (Ok tt,
     Engine x'
       (trace s ++ [Log Info MsgStopping; EvOnStop]
                ++ (if xt_trader s then [EvTraderStop] else []))
       (xt_trader s) (order_manager s) false).
Proof.
  intros Hstop Htrader. destruct s as [x t xt om r].
  unfold stop, bind, modify, log, call, get, ret. engine_simpl.
  specialize (Hstop x). destruct (on_stop x) as [[[]|e] x1]; [|discriminate].
  destruct xt; engine_simpl.
  - specialize (Htrader x1).
    destruct (trader_stop x1) as [[[]|e] x2]; [|discriminate].
    exists x2. now rewrite <- !app_assoc.
  - exists x1. now rewrite <- !app_assoc.
Qed.

(** C3, as the code has it. Two calls of [stop()] in a row produce no error
    (when the strategy's [on_stop] and the gateway's [stop] do not raise),
    leave the engine not running, and invoke the strategy's [on_stop] once
    per call: twice over the two calls. *)
Theorem stop_twice_invokes_on_stop_twice s :
  (forall x, fst (on_stop x) = Ok tt) ->
  (forall x, fst (trader_stop x) = Ok tt) ->
  exists s2,
    (stop >> stop) s = (Ok tt, s2) /\
    running s2 = false /\
    filter is_on_stop (events_since s s2) = [EvOnStop; EvOnStop].
Proof.
  intros Hstop Htrader.
  destruct (stop_returns s Hstop Htrader) as [x1 H1].
  erewrite bind_ok by exact H1.
  match goal with |- context [stop ?s1] =>
    destruct (stop_returns s1 Hstop Htrader) as [x2 H2]
  end.
  rewrite H2. eexists. split; [reflexivity|]. split; [reflexivity|].
  erewrite events_since_app by (simpl; rewrite <- !app_assoc; reflexivity).
  simpl. destruct (xt_trader s); reflexivity.
Qed.

(** [connect] once the trader is created and started and the gateway's
    connect call has answered [result]. *)
Lemma connect_run s now session_id result x1 x2 x3 x4 :
  time_time (world s) = (Ok now, x1) ->
  float_to_int now = Ok session_id ->
  trader_new (mini_qmt_path cfg) session_id x1 = (Ok tt, x2) ->
  trader_start x2 = (Ok tt, x3) ->
  trader_connect x3 = (Ok result, x4) ->
  (result <> 0 ->
   connect cfg s = (Ok false, after_failed_connect cfg x4 session_id result s)) /\
  (result = 0 -> fst (connect cfg s) <> Ok false).
Proof.
  intros Hnow Hsid Hnew Hstart Hconn.
  destruct s as [x t xt om r]. simpl in Hnow.
  unfold connect, after_failed_connect, bind, log, modify, call, lift, ret.
  engine_simpl. rewrite Hnow, Hsid. engine_simpl. rewrite Hnew. engine_simpl.
  rewrite Hstart. engine_simpl. rewrite Hconn. engine_simpl.
  destruct (result =? 0) eqn:Hres.
  - apply Z.eqb_eq in Hres. split; [intros Hne; contradiction|]. intros _.
    simpl. destruct (trader_subscribe (account_id cfg) x4) as [[[]|e] x5]; simpl;
      discriminate.
  - apply Z.eqb_neq in Hres. split; [|intros Hz; contradiction].
    intros _. simpl. now rewrite <- !app_assoc.
Qed.

(** X19. [connect] answers [False] exactly when the gateway's connect call
    returns a nonzero result code. *)
Theorem connect_false_iff_nonzero s now session_id result x1 x2 x3 x4 :
  time_time (world s) = (Ok now, x1) ->
  float_to_int now = Ok session_id ->
  trader_new (mini_qmt_path cfg) session_id x1 = (Ok tt, x2) ->
  trader_start x2 = (Ok tt, x3) ->
  trader_connect x3 = (Ok result, x4) ->
  fst (connect cfg s) = Ok false <-> result <> 0.
Proof.
  intros Hnow Hsid Hnew Hstart Hconn.
  destruct (connect_run s now session_id result x1 x2 x3 x4
              Hnow Hsid Hnew Hstart Hconn) as [Hfail Hsucc].
  split.
  - intros Hfalse Hz. now apply (Hsucc Hz).
  - intros Hne. now rewrite (Hfail Hne).
Qed.

(** X20. After a failed connect the [start] call that made the attempt
    returns, whatever the fuel: the running flag is not set, no market
    data is subscribed and the gateway's connect is called once. *)
Theorem start_returns_on_failed_connect fuel s now session_id result x1 x2 x3 x4 :
  xt_trader s = false ->
  time_time (world s) = (Ok now, x1) ->
  float_to_int now = Ok session_id ->
  trader_new (mini_qmt_path cfg) session_id x1 = (Ok tt, x2) ->
  trader_start x2 = (Ok tt, x3) ->
  trader_connect x3 = (Ok result, x4) ->
  result <> 0 ->
  start cfg fuel s =
    Returned (Ok tt) (after_failed_connect cfg x4 session_id result s) /\
  running (after_failed_connect cfg x4 session_id result s) = running s /\
  filter is_gateway
    (events_since s (after_failed_connect cfg x4 session_id result s)) =
    [EvNewTrader (mini_qmt_path cfg) session_id; EvTraderStart; EvTraderConnect].
Proof.
  intros Hxt Hnow Hsid Hnew Hstart Hconn Hres.
  destruct (connect_run s now session_id result x1 x2 x3 x4
              Hnow Hsid Hnew Hstart Hconn) as [Hfail _].
  specialize (Hfail Hres).
  split; [|split].
  - unfold start, start_setup.
    erewrite bind_ok by reflexivity. rewrite Hxt.
    erewrite bind_ok by exact Hfail. reflexivity.
  - reflexivity.
  - erewrite events_since_app by reflexivity. reflexivity.
Qed.

End Session.

(** ** What engine code emits *)

Section Emits.
Context {X : Type}.
Implicit Types (Q : event -> bool).

Lemma emits_only_ret {A} Q (a : A) : emits_only (X := X) Q (ret a).
Proof.
  intros s. exists (world s), []. split; [|constructor].
  destruct s. simpl. now rewrite app_nil_r.
Qed.

Lemma emits_only_lift {A} Q (r : outcome A) : emits_only (X := X) Q (lift r).
Proof.
  intros s. exists (world s), []. split; [|constructor].
  destruct s. simpl. now rewrite app_nil_r.
Qed.

Lemma emits_only_get Q : emits_only (X := X) Q get.
Proof.
  intros s. exists (world s), []. split; [|constructor].
  destruct s. simpl. now rewrite app_nil_r.
Qed.

Lemma emits_only_log Q (l : level) (m : message) :
  Q (Log l m) = true -> emits_only (X := X) Q (log l m).
Proof.
  intros HQ s. exists (world s), [Log l m]. split; [reflexivity|].
  repeat constructor. exact HQ.
Qed.

Lemma emits_only_call {A} Q (ev : event) (f : X -> outcome A * X) :
  Q ev = true -> emits_only Q (call ev f).
Proof.
  intros HQ s. unfold call. destruct (f (world s)) as [r x].
  exists x, [ev]. split; [reflexivity|]. repeat constructor. exact HQ.
Qed.

Lemma emits_only_bind {A B} Q (m : M X A) (k : A -> M X B) :
  emits_only Q m -> (forall a, emits_only Q (k a)) -> emits_only Q (bind m k).
Proof.
  intros Hm Hk s. destruct (Hm s) as (x1 & evs1 & H1 & HQ1).
  unfold bind. destruct (m s) as [[a|e] s1]; simpl in H1; subst s1.
  - match goal with |- context [k a ?s1] =>
      destruct (Hk a s1) as (x2 & evs2 & H2 & HQ2)
    end.
    simpl in H2. exists x2, (evs1 ++ evs2). split.
    + rewrite H2. now rewrite app_assoc.
    + now apply Forall_app.
  - now exists x1, evs1.
Qed.

Lemma emits_only_try {A} Q (m : M X A) (h : exn -> M X A) :
  emits_only Q m -> (forall e, emits_only Q (h e)) ->
  emits_only Q (try_except m h).
Proof.
  intros Hm Hh s. destruct (Hm s) as (x1 & evs1 & H1 & HQ1).
  unfold try_except. destruct (m s) as [[a|e] s1]; simpl in H1; subst s1.
  - now exists x1, evs1.
  - match goal with |- context [h e ?s1] =>
      destruct (Hh e s1) as (x2 & evs2 & H2 & HQ2)
    end.
    simpl in H2. exists x2, (evs1 ++ evs2). split.
    + rewrite H2. now rewrite app_assoc.
    + now apply Forall_app.
Qed.

Lemma emits_only_for_each {A} Q (l : list A) (body : A -> M X unit) :
  (forall a, emits_only Q (body a)) -> emits_only Q (for_each l body).
Proof.
  intros Hbody. induction l as [|a l IH]; simpl.
  - apply emits_only_ret.
  - apply emits_only_bind; [apply Hbody | intros _; exact IH].
Qed.

Lemma emits_only_weaken {A} Q Q' (m : M X A) :
  (forall e, Q e = true -> Q' e = true) -> emits_only Q m -> emits_only Q' m.
Proof.
  intros Himp Hm s. destruct (Hm s) as (x & evs & Hs & HQ).
  exists x, evs. split; [exact Hs|].
  eapply Forall_impl; [exact HQ | exact Himp].
Qed.

End Emits.

(** Follows the structure of a monadic term. *)
Ltac emits_tac :=
  repeat first
    [ apply emits_only_ret
    | apply emits_only_lift
    | apply emits_only_get
    | apply emits_only_log; reflexivity
    | apply emits_only_call; reflexivity
    | apply emits_only_bind; [|intros ?]
    | match goal with
      | |- emits_only _ (if ?c then _ else _) => destruct c
      | |- emits_only _ (match ?c with _ => _ end) => destruct c
      end ].

(** ** The market-data handler as a whole *)

Section Handler.
Context {X : Type} {collab : Collaborators X} {runtime : PyRuntime}.
Variable cfg : config.
Implicit Types (s : engine X) (symbol : string) (tick_data : pyval).

Lemma quiet_not_order (e : event) : is_quiet e = true -> not_order e = true.
Proof. destruct e; cbv; congruence. Qed.

Lemma quiet_not_gateway (e : event) : is_quiet e = true -> not_gateway e = true.
Proof. destruct e; cbv; congruence. Qed.

Lemma log_is_quiet (e : event) : is_log e = true -> is_quiet e = true.
Proof. destruct e; simpl; congruence. Qed.

Lemma no_orders (evs : list event) :
  Forall (fun e => not_order e = true) evs -> orders evs = [].
Proof.
  induction 1 as [|e evs He _ IH]; [reflexivity|].
  unfold orders. rewrite filter_cons_False.
  - exact IH.
  - unfold not_order in He. destruct (is_order e); [discriminate | auto].
Qed.

Lemma no_gateway (evs : list event) :
  Forall (fun e => not_gateway e = true) evs -> filter is_gateway evs = [].
Proof.
  induction 1 as [|e evs He _ IH]; [reflexivity|].
  rewrite filter_cons_False.
  - exact IH.
  - unfold not_gateway in He. destruct (is_gateway e); [discriminate | auto].
Qed.

Lemma orders_app (evs1 evs2 : list event) :
  orders (evs1 ++ evs2) = orders evs1 ++ orders evs2.
Proof. apply filter_app. Qed.

(** Normalisation only logs and, for a tick, reads the clock. *)
Lemma normalize_quiet symbol tick_data :
  emits_only is_quiet (normalize symbol tick_data).
Proof. unfold normalize. emits_tac. Qed.

Lemma log_failure_quiet symbol tick_data e :
  emits_only (X := X) is_quiet (log_failure symbol tick_data e).
Proof. unfold log_failure. emits_tac. Qed.

(** Whatever the collaborators answer, [_handle_signal] leaves the
    attributes alone and places at most one order, of the expected shape;
    with no order manager it only logs. *)
Lemma handle_signal_effect symbol (signal price : pyval) s :
  exists x evs,
    snd (handle_signal symbol signal price s) =
      Engine x (trace s ++ evs) (xt_trader s) (order_manager s) (running s) /\
    signal_orders symbol (orders evs) /\
    (order_manager s = false -> Forall (fun e => is_log e = true) evs).
Proof.
  unfold handle_signal. destruct (eq_str signal "hold").
  { exists (world s), []. split; [|split; [now left | constructor]].
    destruct s. simpl. now rewrite app_nil_r. }
  unfold om_call, log, modify, get, call, lift, ret, bind.
  destruct s as [x t xt [|] r]; engine_simpl.
  2:{ exists x, [Log Info (MsgSignal symbol signal)].
      split; [reflexivity|]. split; [now left | intros _; repeat constructor]. }
  destruct (get_positions x) as [[ps|e] x1]; engine_simpl.
  2:{ exists x1, [Log Info (MsgSignal symbol signal); EvGetPositions].
      split; [now rewrite <- ?app_assoc|]. split; [now left | discriminate]. }
  destruct (get_asset x1) as [[a|e] x2]; engine_simpl.
  2:{ exists x2, [Log Info (MsgSignal symbol signal); EvGetPositions; EvGetAsset].
      split; [now rewrite <- ?app_assoc|]. split; [now left | discriminate]. }
  destruct (eq_str signal "buy").
  - destruct (py_mul_int price 100) as [cost|e]; engine_simpl.
    2:{ exists x2, [Log Info (MsgSignal symbol signal); EvGetPositions; EvGetAsset].
        split; [now rewrite <- ?app_assoc|]. split; [now left | discriminate]. }
    destruct (num_gt_val (cash a) cost) as [[|]|e]; engine_simpl.
    + destruct (buy symbol price 100 "LiveStrategy" x2) as [r' x3].
      exists x3, [Log Info (MsgSignal symbol signal); EvGetPositions; EvGetAsset;
                  EvBuy symbol price 100 "LiveStrategy"].
      split; [simpl; now rewrite <- ?app_assoc|].
      split; [right; left; now exists price | discriminate].
    + exists x2, [Log Info (MsgSignal symbol signal); EvGetPositions; EvGetAsset;
                  Log Warning (MsgInsufficientCash symbol (cash a) cost)].
      split; [now rewrite <- ?app_assoc|]. split; [now left | discriminate].
    + exists x2, [Log Info (MsgSignal symbol signal); EvGetPositions; EvGetAsset].
      split; [now rewrite <- ?app_assoc|]. split; [now left | discriminate].
  - destruct (eq_str signal "sell"); engine_simpl.
    2:{ exists x2, [Log Info (MsgSignal symbol signal); EvGetPositions; EvGetAsset].
        split; [now rewrite <- ?app_assoc|]. split; [now left | discriminate]. }
    destruct (0 <? default 0 (position_map ps !! symbol)) eqn:Hpos; engine_simpl.
    + destruct (sell symbol price (default 0 (position_map ps !! symbol))
                  "LiveStrategy" x2) as [r' x3].
      exists x3, [Log Info (MsgSignal symbol signal); EvGetPositions; EvGetAsset;
                  EvSell symbol price (default 0 (position_map ps !! symbol))
                    "LiveStrategy"].
      split; [simpl; now rewrite <- ?app_assoc|].
      split; [|discriminate].
      right; right. eexists _, _. split; [apply Z.ltb_lt; exact Hpos | reflexivity].
    + exists x2, [Log Info (MsgSignal symbol signal); EvGetPositions; EvGetAsset;
                  Log Warning (MsgNoPosition symbol)].
      split; [now rewrite <- ?app_assoc|]. split; [now left | discriminate].
Qed.

Lemma quiet_no_orders (evs : list event) :
  Forall (fun e => is_quiet e = true) evs -> orders evs = [].
Proof.
  intros Hq. apply no_orders.
  eapply Forall_impl; [exact Hq | exact quiet_not_order].
Qed.

Lemma quiet_all_not_gateway (evs : list event) :
  Forall (fun e => is_quiet e = true) evs ->
  Forall (fun e => not_gateway e = true) evs.
Proof. intros Hq. eapply Forall_impl; [exact Hq | exact quiet_not_gateway]. Qed.

(** The [try] body for one update. *)
Lemma process_update_effect symbol tick_data s :
  exists x evs,
    snd (process_update symbol tick_data s) =
      Engine x (trace s ++ evs) (xt_trader s) (order_manager s) (running s) /\
    signal_orders symbol (orders evs) /\
    (order_manager s = false -> Forall (fun e => not_gateway e = true) evs).
Proof.
  unfold process_update, bind.
  destruct (normalize_quiet symbol tick_data s) as (x1 & evs1 & H1 & HQ1).
  destruct (normalize symbol tick_data s) as [[[[b p]|]|e] s1];
    simpl in H1; subst s1.
  - unfold call. engine_simpl.
    destruct (on_bar b x1) as [[signal|e] x2].
    + match goal with |- context [handle_signal symbol signal p ?s2] =>
        destruct (handle_signal_effect symbol signal p s2)
          as (x3 & evs3 & H3 & Ho & Hg)
      end.
      simpl in H3, Hg. exists x3, (evs1 ++ [EvOnBar b] ++ evs3).
      split; [rewrite H3; now rewrite <- !app_assoc|]. split.
      * rewrite !orders_app, (quiet_no_orders evs1 HQ1). exact Ho.
      * intros Hom. apply Forall_app. split; [now apply quiet_all_not_gateway|].
        apply Forall_cons. split; [reflexivity|].
        apply quiet_all_not_gateway.
        eapply Forall_impl; [exact (Hg Hom) | exact log_is_quiet].
    + exists x2, (evs1 ++ [EvOnBar b]).
      split; [simpl; now rewrite <- !app_assoc|]. split.
      * rewrite orders_app, (quiet_no_orders evs1 HQ1). now left.
      * intros _. apply Forall_app. split; [now apply quiet_all_not_gateway|].
        now repeat constructor.
  - exists x1, evs1. split; [reflexivity|]. split.
    + rewrite (quiet_no_orders evs1 HQ1). now left.
    + intros _. now apply quiet_all_not_gateway.
  - exists x1, evs1. split; [reflexivity|]. split.
    + rewrite (quiet_no_orders evs1 HQ1). now left.
    + intros _. now apply quiet_all_not_gateway.
Qed.

(** One iteration of the loop. *)
Lemma handle_update_effect symbol tick_data s :
  exists x evs,
    snd (handle_update cfg symbol tick_data s) =
      Engine x (trace s ++ evs) (xt_trader s) (order_manager s) (running s) /\
    signal_orders symbol (orders evs) /\
    (order_manager s = false -> Forall (fun e => not_gateway e = true) evs) /\
    (symbol ∉ symbols cfg -> evs = []).
Proof.
  unfold handle_update. case_bool_decide as Hin.
  - unfold try_except.
    destruct (process_update_effect symbol tick_data s)
      as (x1 & evs1 & H1 & Ho & Hg).
    destruct (process_update symbol tick_data s) as [[[]|e] s1];
      simpl in H1; subst s1.
    + exists x1, evs1. repeat split; [exact Ho | exact Hg | contradiction].
    + rewrite log_failure_eq. exists x1, (evs1 ++ failure_log symbol tick_data e).
      split; [unfold add_events; simpl; now rewrite <- app_assoc|]. split; [|split].
      * rewrite orders_app, app_nil_r. exact Ho.
      * intros Hom. apply Forall_app. split; [exact (Hg Hom)|].
        now repeat constructor.
      * contradiction.
  - exists (world s), []. split; [|split; [now left | split; [constructor | reflexivity]]].
    destruct s. simpl. now rewrite app_nil_r.
Qed.

Lemma signal_orders_within symbol (data : list (string * pyval)) evs :
  signal_orders symbol (orders evs) ->
  symbol ∈ symbols cfg -> symbol ∈ map fst data ->
  Forall (order_within cfg data) evs.
Proof.
  intros Ho Hsub Hin. apply Forall_forall. intros e He.
  assert (Hmem : is_order e = true -> e ∈ orders evs).
  { intros Hord. unfold orders. apply list_elem_of_filter. split; [|exact He].
    rewrite Hord. exact I. }
  destruct e; try exact I; simpl; specialize (Hmem eq_refl);
    destruct Ho as [Ho | [[p Ho] | (p & q & Hq & Ho)]]; rewrite Ho in Hmem;
    try (apply elem_of_nil in Hmem; contradiction);
    apply list_elem_of_singleton in Hmem; try discriminate Hmem;
    injection Hmem as -> -> -> ->; auto.
Qed.

Lemma order_within_cons (item : string * pyval) (data : list (string * pyval)) e :
  order_within cfg data e -> order_within cfg (item :: data) e.
Proof.
  destruct e; simpl; try exact id;
    intros (Hsub & Hin & Hrest); (split; [exact Hsub | split; [now right | exact Hrest]]).
Qed.

Lemma signal_orders_length symbol (os : list event) :
  signal_orders symbol os -> (length os <= 1)%nat.
Proof.
  intros [-> | [[p ->] | (p & q & _ & ->)]]; simpl; lia.
Qed.

(** The handler over a whole payload. *)
Lemma on_market_data_effect (data : list (string * pyval)) s :
  exists x evs,
    snd (on_market_data cfg data s) =
      Engine x (trace s ++ evs) (xt_trader s) (order_manager s) (running s) /\
    Forall (order_within cfg data) evs /\
    (length (orders evs) <= length (subscribed_items cfg data))%nat /\
    (order_manager s = false -> Forall (fun e => not_gateway e = true) evs).
Proof.
  revert s. induction data as [|[symbol tick_data] data IH]; intros s.
  - exists (world s), []. split; [|split; [constructor | split; [simpl; lia | constructor]]].
    destruct s. simpl. now rewrite app_nil_r.
  - rewrite on_market_data_cons.
    destruct (handle_update_effect symbol tick_data s)
      as (x1 & evs1 & H1 & Ho & Hg & Hout).
    rewrite H1.
    match goal with |- context [on_market_data cfg data ?s1] =>
      destruct (IH s1) as (x2 & evs2 & H2 & Hw & Hlen & Hg2)
    end.
    simpl in H2, Hg2. exists x2, (evs1 ++ evs2).
    split; [rewrite H2; now rewrite <- app_assoc|]. split; [|split].
    + apply Forall_app. split.
      * destruct (decide (symbol ∈ symbols cfg)) as [Hsub|Hsub].
        -- apply (signal_orders_within symbol); [exact Ho | exact Hsub | now left].
        -- rewrite (Hout Hsub). constructor.
      * eapply Forall_impl; [exact Hw | intros e; apply order_within_cons].
    + rewrite orders_app, length_app. unfold subscribed_items.
      destruct (decide (symbol ∈ symbols cfg)) as [Hsub|Hsub].
      * rewrite filter_cons_True by exact Hsub. simpl.
        pose proof (signal_orders_length symbol _ Ho).
        unfold subscribed_items in Hlen. lia.
      * rewrite filter_cons_False by exact Hsub. rewrite (Hout Hsub). simpl.
        exact Hlen.
    + intros Hom. apply Forall_app. split; [exact (Hg Hom) | exact (Hg2 Hom)].
Qed.

(** X1. Whatever the payload holds and whatever the strategy and the
    gateway answer, every order [_on_market_data] submits is for a symbol
    that is subscribed and occurs in the payload, is a buy of exactly 100
    or a sell of a strictly positive quantity, and carries the tag
    "LiveStrategy"; and the handler submits at most one order per
    subscribed item of the payload. *)
Theorem market_data_orders_are_bounded (data : list (string * pyval)) s :
  exists evs,
    trace (snd (on_market_data cfg data s)) = trace s ++ evs /\
    Forall (order_within cfg data) evs /\
    (length (orders evs) <= length (subscribed_items cfg data))%nat.
Proof.
  destruct (on_market_data_effect data s) as (x & evs & Hs & Hw & Hlen & _).
  exists evs. rewrite Hs. now repeat split.
Qed.

(** X2. [_on_market_data] never changes the engine's attributes: the
    running flag, the trader and the order manager are as before, and the
    trace only grows. *)
Theorem market_data_keeps_attributes (data : list (string * pyval)) s :
  let s' := snd (on_market_data cfg data s) in
  running s' = running s /\
  xt_trader s' = xt_trader s /\
  order_manager s' = order_manager s /\
  trace s' = trace s ++ events_since s s'.
Proof.
  destruct (on_market_data_effect data s) as (x & evs & Hs & _).
  simpl. rewrite Hs. simpl. repeat split.
  erewrite events_since_app by reflexivity. reflexivity.
Qed.

(** X3. On an engine that has no order manager (it never connected, or
    the connection failed), [_on_market_data] makes no gateway call at
    all, so it places no order, whatever the strategy answers. *)
Theorem unconnected_engine_makes_no_gateway_call (data : list (string * pyval)) s :
  order_manager s = false ->
  filter is_gateway (events_since s (snd (on_market_data cfg data s))) = [] /\
  orders (events_since s (snd (on_market_data cfg data s))) = [].
Proof.
  intros Hom.
  destruct (on_market_data_effect data s) as (x & evs & Hs & _ & _ & Hg).
  rewrite Hs. erewrite events_since_app by reflexivity.
  specialize (Hg Hom). split; [now apply no_gateway|].
  apply no_orders. eapply Forall_impl; [exact Hg|].
  intros e. unfold not_gateway, not_order. destruct e; simpl; congruence.
Qed.

(** With a strategy that answers "hold" to every bar, one update only
    logs, reads the clock and calls the strategy. *)
Lemma holding_update_off_gateway symbol tick_data :
  (forall b x, fst (on_bar b x) = Ok (VStr "hold")) ->
  emits_only not_gateway (handle_update cfg symbol tick_data).
Proof.
  intros Hhold. unfold handle_update. case_bool_decide; [|apply emits_only_ret].
  apply emits_only_try.
  2:{ intros e. eapply emits_only_weaken; [exact quiet_not_gateway|].
      apply log_failure_quiet. }
  unfold process_update. apply emits_only_bind.
  { eapply emits_only_weaken; [exact quiet_not_gateway | apply normalize_quiet]. }
  intros [[b p]|]; [|apply emits_only_ret].
  intros s. unfold bind, call. specialize (Hhold b (world s)).
  destruct (on_bar b (world s)) as [r x1]. simpl in Hhold. subst r.
  exists x1, [EvOnBar b]. split; [reflexivity | now repeat constructor].
Qed.

(** X4. With a strategy that answers "hold" to every bar,
    [_on_market_data] never calls the gateway: no position or asset read,
    no order. *)
Theorem holding_strategy_makes_no_gateway_call (data : list (string * pyval)) s :
  (forall b x, fst (on_bar b x) = Ok (VStr "hold")) ->
  filter is_gateway (events_since s (snd (on_market_data cfg data s))) = [].
Proof.
  intros Hhold.
  assert (Hall : emits_only not_gateway (on_market_data cfg data)).
  { unfold on_market_data. apply emits_only_for_each.
    intros [symbol tick_data]. now apply holding_update_off_gateway. }
  destruct (Hall s) as (x & evs & Hs & Hg). rewrite Hs.
  erewrite events_since_app by reflexivity. now apply no_gateway.
Qed.

(** X5. Items of the payload whose symbol is not subscribed have no
    effect at all: the handler does on a payload exactly what it does on
    the payload's subscribed items. *)
Theorem unsubscribed_items_are_ignored (data : list (string * pyval)) s :
  on_market_data cfg data s = on_market_data cfg (subscribed_items cfg data) s.
Proof.
  revert s. induction data as [|[symbol tick_data] data IH]; intros s.
  - reflexivity.
  - unfold subscribed_items.
    destruct (decide (symbol ∈ symbols cfg)) as [Hsub|Hsub].
    + rewrite filter_cons_True by exact Hsub.
      rewrite !on_market_data_cons. apply IH.
    + rewrite filter_cons_False by exact Hsub.
      rewrite on_market_data_cons. unfold handle_update.
      rewrite bool_decide_eq_false_2 by exact Hsub. apply IH.
Qed.

Lemma normalize_latest_only symbol (pre : list pyval) (latest_bar : pyval) s :
  normalize symbol (VList (pre ++ [latest_bar])) s =
  normalize symbol (VList [latest_bar]) s.
Proof.
  assert (Hlast : last (pre ++ [latest_bar]) = Some latest_bar) by apply last_snoc.
  destruct (pre ++ [latest_bar]) as [|y l] eqn:Hl.
  { destruct pre; discriminate Hl. }
  unfold normalize.
  change (is_none (VList (y :: l)) || eq_int (VList (y :: l)) 0
          || eq_empty_list (VList (y :: l))) with false.
  change (is_none (VList [latest_bar]) || eq_int (VList [latest_bar]) 0
          || eq_empty_list (VList [latest_bar])) with false.
  cbv iota.
  change (Nat.eqb (length (y :: l)) 0) with false.
  change (Nat.eqb (length [latest_bar]) 0) with false. cbv iota.
  unfold py_last. rewrite Hlast. reflexivity.
Qed.

(** X6. Of a list payload only the last bar counts: the bars before it
    change nothing in what the [try] body does (the bar built, the
    strategy call, the decision). *)
Theorem only_latest_bar_is_used symbol (pre : list pyval) (latest_bar : pyval) s :
  process_update symbol (VList (pre ++ [latest_bar])) s =
  process_update symbol (VList [latest_bar]) s.
Proof.
  unfold process_update, bind. now rewrite normalize_latest_only.
Qed.

(** X7. A tick without a price - the key "lastPrice" is missing, or its
    value is falsy (None, 0, 0.0, the empty string) - is dropped in
    silence: no log line, no clock read, no strategy call, nothing
    changes. *)
Theorem tick_without_price_is_dropped symbol (d : list (pyval * pyval)) s :
  truthy (dict_get d "lastPrice") = false ->
  handle_update cfg symbol (VDict d) s = (Ok tt, s).
Proof.
  intros Hprice. unfold handle_update. case_bool_decide; [|reflexivity].
  unfold try_except, process_update, bind, normalize.
  change (is_none (VDict d) || eq_int (VDict d) 0 || eq_empty_list (VDict d))
    with false. cbv iota.
  rewrite Hprice. reflexivity.
Qed.

Lemma non_number_times_100 (price : pyval) :
  as_num price = None ->
  py_mul_int price 100 = Raise TypeError \/
  exists cost, py_mul_int price 100 = Ok cost /\ as_num cost = None.
Proof.
  destruct price; simpl; try discriminate; intros _;
    first [now left | right; eexists; split; reflexivity].
Qed.

(** X21. A buy signal with a price that is not a number (a tick may carry
    any value under "lastPrice") never becomes an order: after the two
    reads the cost or its comparison with the cash raises [TypeError]. *)
Theorem buy_with_non_numeric_price_raises
  symbol (signal price : pyval) s ps a x1 x2 :
  eq_str signal "buy" = true ->
  order_manager s = true ->
  get_positions (world s) = (Ok ps, x1) ->
  get_asset x1 = (Ok a, x2) ->
  as_num price = None ->
  handle_signal symbol signal price s =
    (Raise TypeError, after_reads symbol signal x1 x2 s).
Proof.
  intros Hbuy Hom Hps Ha Hprice. apply eq_str_true in Hbuy. subst signal.
  rewrite (handle_signal_after_reads symbol (VStr "buy") price s ps a x1 x2)
    by (assumption || reflexivity).
  unfold decision. change (eq_str (VStr "buy") "buy") with true. cbv iota.
  unfold bind, lift.
  destruct (non_number_times_100 price Hprice) as [-> | (cost & -> & Hcost)].
  - reflexivity.
  - unfold num_gt_val. now rewrite Hcost.
Qed.

(** X22. A list payload whose latest bar has its six fields but a
    timestamp that is not a number (None, a string, ...) is rejected: the
    comparison with 1e10 raises [TypeError], which the handler catches and
    logs; the strategy is not called and nothing else happens. *)
Theorem bar_with_non_numeric_timestamp_is_rejected
  symbol (l : list pyval) latest_bar n timestamp s :
  symbol ∈ symbols cfg ->
  last l = Some latest_bar ->
  py_len latest_bar = Ok n -> 6 <= n ->
  py_index latest_bar 0 = Ok timestamp ->
  as_num timestamp = None ->
  handle_update cfg symbol (VList l) s =
    (Ok tt, add_events (failure_log symbol (VList l) TypeError) s).
Proof.
  intros Hin Hlast Hlen Hn Hts Hnum.
  unfold handle_update. rewrite bool_decide_eq_true_2 by exact Hin.
  assert (Hraise : process_update symbol (VList l) s = (Raise TypeError, s)).
  { unfold process_update, normalize.
    destruct l as [|y l]; [discriminate Hlast|].
    change (is_none (VList (y :: l)) || eq_int (VList (y :: l)) 0
            || eq_empty_list (VList (y :: l))) with false.
    change (Nat.eqb (length (y :: l)) 0) with false. cbv iota.
    unfold py_last. rewrite Hlast. unfold bind, lift.
    rewrite Hlen. replace (n <? 6) with false by (symmetry; apply Z.ltb_ge; lia).
    rewrite Hts. unfold bar_datetime_of, val_gt_num. rewrite Hnum. reflexivity. }
  unfold try_except. rewrite Hraise. apply log_failure_eq.
Qed.

End Handler.

(** ** The session as a whole *)

Section Lifecycle.
Context {X : Type} {collab : Collaborators X}.
Variable cfg : config.
Implicit Types (s : engine X).

Ltac close_connect :=
  simpl; repeat split; intros; first [reflexivity | congruence].

(** What [connect] does to the attributes, however it ends. *)
Lemma connect_outcome s :
  running (snd (connect cfg s)) = running s /\
  (fst (connect cfg s) = Ok true ->
   xt_trader (snd (connect cfg s)) = true /\
   order_manager (snd (connect cfg s)) = true) /\
  (fst (connect cfg s) = Ok false ->
   xt_trader (snd (connect cfg s)) = true /\
   order_manager (snd (connect cfg s)) = order_manager s).
Proof.
  destruct s as [x t xt om r].
  unfold connect, bind, log, modify, call, lift, ret. engine_simpl.
  destruct (time_time x) as [[now|e] x1]; engine_simpl; [|close_connect].
  destruct (float_to_int now) as [sid|e]; engine_simpl; [|close_connect].
  destruct (trader_new (mini_qmt_path cfg) sid x1) as [[[]|e] x2];
    engine_simpl; [|close_connect].
  destruct (trader_start x2) as [[[]|e] x3]; engine_simpl; [|close_connect].
  destruct (trader_connect x3) as [[result|e] x4]; engine_simpl; [|close_connect].
  destruct (result =? 0); engine_simpl; [|close_connect].
  destruct (trader_subscribe (account_id cfg) x4) as [[[]|e] x5];
    engine_simpl; close_connect.
Qed.

Lemma stop_running_false s : running (snd (stop s)) = false.
Proof.
  destruct s as [x t xt om r].
  unfold stop, bind, log, modify, call, get, ret. engine_simpl.
  destruct (on_stop x) as [[[]|e] x1]; engine_simpl; [|reflexivity].
  destruct xt; engine_simpl; [|reflexivity].
  now destruct (trader_stop x1) as [[[]|e] x2].
Qed.

(** The subscription loop of [start]. *)
Lemma subscribe_loop (l : list string) s :
  (forall symbol per x, fst (subscribe_quote symbol per x) = Ok tt) ->
  exists x,
    for_each l (fun symbol =>
      log Info (MsgSubscribing symbol (period cfg)) >>
      call (EvSubscribeQuote symbol (period cfg))
           (subscribe_quote symbol (period cfg))) s =
    (Ok tt,
     Engine x
       (trace s ++ flat_map (fun symbol =>
                     [Log Info (MsgSubscribing symbol (period cfg));
                      EvSubscribeQuote symbol (period cfg)]) l)
       (xt_trader s) (order_manager s) (running s)).
Proof.
  intros Hsub. revert s. induction l as [|symbol l IH]; intros s.
  - exists (world s). destruct s. simpl. unfold ret. now rewrite app_nil_r.
  - simpl for_each.
    pose proof (Hsub symbol (period cfg) (world s)) as Hs.
    destruct (subscribe_quote symbol (period cfg) (world s)) as [r x1] eqn:Hcall.
    simpl in Hs. subst r.
    erewrite bind_ok.
    2:{ erewrite bind_ok by reflexivity. apply call_eq. exact Hcall. }
    match goal with |- context [for_each l _ ?s1] =>
      destruct (IH s1) as [x2 H2]
    end.
    rewrite H2. exists x2. engine_simpl. now rewrite <- !app_assoc.
Qed.

Lemma subscribe_loop_gateway (l : list string) :
  filter is_gateway
    (flat_map (fun symbol =>
       [Log Info (MsgSubscribing symbol (period cfg));
        EvSubscribeQuote symbol (period cfg)]) l) =
  map (fun symbol => EvSubscribeQuote symbol (period cfg)) l.
Proof.
  induction l as [|symbol l IH]; [reflexivity|].
  simpl. rewrite filter_cons_False by (simpl; auto).
  rewrite filter_cons_True by exact I. now rewrite IH.
Qed.

(** [start] on an engine that holds a trader object. *)
Lemma start_with_trader fuel s :
  xt_trader s = true ->
  (forall symbol per x, fst (subscribe_quote symbol per x) = Ok tt) ->
  exists x,
    start cfg fuel s =
    keep_alive fuel
      (Engine x
         (trace s ++ Log Info MsgStarting ::
            flat_map (fun symbol =>
              [Log Info (MsgSubscribing symbol (period cfg));
               EvSubscribeQuote symbol (period cfg)]) (symbols cfg))
         true (order_manager s) true).
Proof.
  intros Hxt Hsub. unfold start, start_setup.
  erewrite bind_ok by reflexivity. rewrite Hxt.
  erewrite bind_ok by reflexivity. change (negb true) with false. cbv iota.
  erewrite bind_ok by reflexivity. erewrite bind_ok by reflexivity.
  match goal with |- context [bind (for_each ?l ?body) ?k ?s1] =>
    destruct (subscribe_loop l s1 Hsub) as [x Hloop]
  end.
  erewrite bind_ok by exact Hloop. exists x. unfold ret.
  destruct s as [x0 t xt om r]. simpl in Hxt. subst xt. engine_simpl.
  now rewrite <- !app_assoc.
Qed.

(** X8. [stop] marks the engine as not running whatever the collaborators
    do, because it clears the flag first. When the strategy's [on_stop]
    raises, the exception leaves [stop] before the trader is reached: the
    gateway session is never stopped. On an engine without trader object
    [stop] makes no gateway call either. *)
Theorem stop_always_clears_running s :
  running (snd (stop s)) = false /\
  (forall e x, on_stop (world s) = (Raise e, x) ->
     fst (stop s) = Raise e /\
     filter is_gateway (events_since s (snd (stop s))) = []) /\
  (xt_trader s = false ->
     filter is_gateway (events_since s (snd (stop s))) = []).
Proof.
  split; [apply stop_running_false|].
  destruct s as [x t xt om r].
  unfold stop, bind, log, modify, call, get, ret, events_since. engine_simpl.
  split.
  - intros e x1 Hstop. rewrite Hstop. engine_simpl.
    split; [reflexivity|].
    rewrite <- app_assoc, drop_app_length. reflexivity.
  - intros ->. destruct (on_stop x) as [[[]|e] x1]; engine_simpl;
      rewrite <- app_assoc, drop_app_length; reflexivity.
Qed.

(** X9. [start] on an engine that already holds a trader object (after
    an explicit [connect()], as the runner script does) does not connect
    again: it sets the running flag, subscribes to every configured symbol
    once, in the configured order and with the configured period, and
    enters the keep-alive loop. *)
Theorem start_with_trader_subscribes_each_symbol fuel s :
  xt_trader s = true ->
  (forall symbol per x, fst (subscribe_quote symbol per x) = Ok tt) ->
  exists s',
    start cfg fuel s = keep_alive fuel s' /\
    running s' = true /\
    order_manager s' = order_manager s /\
    filter is_gateway (events_since s s') =
      map (fun symbol => EvSubscribeQuote symbol (period cfg)) (symbols cfg).
Proof.
  intros Hxt Hsub. destruct (start_with_trader fuel s Hxt Hsub) as [x Hstart].
  eexists. split; [exact Hstart|]. split; [reflexivity|]. split; [reflexivity|].
  erewrite events_since_app by reflexivity.
  rewrite filter_cons_False by (simpl; auto). apply subscribe_loop_gateway.
Qed.

(** X10. Whenever [connect] answers [False], the trader object it created
    stays assigned while the order manager and the running flag are as
    before; a later [start] therefore takes the engine for connected: it
    skips [connect], sets the running flag and subscribes to market data,
    still without order manager. *)
Theorem failed_connect_leaves_trader_assigned fuel s s1 :
  connect cfg s = (Ok false, s1) ->
  (forall symbol per x, fst (subscribe_quote symbol per x) = Ok tt) ->
  xt_trader s1 = true /\
  order_manager s1 = order_manager s /\
  running s1 = running s /\
  exists s2,
    start cfg fuel s1 = keep_alive fuel s2 /\
    running s2 = true /\
    order_manager s2 = order_manager s /\
    filter is_gateway (events_since s1 s2) =
      map (fun symbol => EvSubscribeQuote symbol (period cfg)) (symbols cfg).
Proof.
  intros Hc Hsub. destruct (connect_outcome s) as (Hrun & _ & Hfalse).
  rewrite Hc in Hrun, Hfalse. simpl in Hrun, Hfalse.
  destruct (Hfalse eq_refl) as [Hxt Hom].
  split; [exact Hxt|]. split; [exact Hom|]. split; [exact Hrun|].
  destruct (start_with_trader fuel s1 Hxt Hsub) as [x Hstart].
  eexists. split; [exact Hstart|]. split; [reflexivity|]. split; [exact Hom|].
  erewrite events_since_app by reflexivity.
  rewrite filter_cons_False by (simpl; auto). apply subscribe_loop_gateway.
Qed.

(** X11. On an engine without trader object, whenever [connect()] answers
    [True], the [start()] that follows it (as in the runner script) ends
    exactly as [start()] alone would have on the engine before the connect:
    same result, same final state, same trace. The successful [connect]
    leaves the trader and the order manager assigned. *)
Theorem connect_then_start_is_start fuel s s1 :
  xt_trader s = false ->
  connect cfg s = (Ok true, s1) ->
  start cfg fuel s1 = start cfg fuel s /\
  xt_trader s1 = true /\
  order_manager s1 = true.
Proof.
  intros Hxt Hc. destruct (connect_outcome s) as (_ & Htrue & _).
  rewrite Hc in Htrue. simpl in Htrue. destruct (Htrue eq_refl) as [Hxt1 Hom1].
  split; [|split; assumption].
  unfold start, start_setup, bind, get. rewrite Hxt1, Hxt, Hc. reflexivity.
Qed.

Lemma keep_alive_returns_stopped fuel s s' :
  keep_alive fuel s = Returned (Ok tt) s' -> running s' = false.
Proof.
  revert s. induction fuel as [|fuel IH]; intros s; simpl;
    destruct (running s) eqn:Hrun; try discriminate;
    try (intros [= <-]; exact Hrun).
  destruct (call EvSleep time_sleep s) as [[[|]|e] s1]; [| apply IH | discriminate].
  pose proof (stop_running_false s1) as Hstop.
  destruct (stop s1) as [r s2]. intros [= -> <-]. exact Hstop.
Qed.

(** X12. [start] never returns normally with the engine marked as
    running: when it returns without raising, either the connection had
    failed and the flag was never set, or the keep-alive loop was left
    through [stop]. *)
Theorem start_never_returns_running fuel s s' :
  running s = false ->
  start cfg fuel s = Returned (Ok tt) s' ->
  running s' = false.
Proof.
  intros Hrun. unfold start.
  destruct (start_setup cfg s) as [[[|]|e] s1] eqn:Hsetup; [| |discriminate].
  - apply keep_alive_returns_stopped.
  - intros [= <-]. revert Hsetup. unfold start_setup, bind, get.
    destruct (xt_trader s).
    + unfold ret at 1. change (negb true) with false.
      unfold log, modify, ret. cbv beta iota.
      match goal with |- context [@for_each ?T ?A ?l ?b ?st] =>
        destruct (@for_each T A l b st) as [[[]|e] s2]
      end; discriminate.
    + pose proof (connect_outcome s) as (Hkeep & _).
      destruct (connect cfg s) as [[[|]|e] sc]; simpl in Hkeep.
      * change (negb true) with false.
        unfold log, modify, ret. cbv beta iota.
        match goal with |- context [@for_each ?T ?A ?l ?b ?st] =>
          destruct (@for_each T A l b st) as [[[]|e] s2]
        end; discriminate.
      * unfold ret. simpl. intros [= <-]. now rewrite Hkeep.
      * discriminate.
Qed.

(** X13. The keep-alive loop does not end by itself: while the engine is
    running and no interrupt arrives it only sleeps, once per round, and
    touches neither the gateway nor the strategy nor the attributes. *)
Theorem keep_alive_only_sleeps fuel s :
  running s = true ->
  (forall x, fst (time_sleep x) = Ok false) ->
  exists x,
    keep_alive fuel s =
    Waiting (Engine x (trace s ++ replicate fuel EvSleep)
               (xt_trader s) (order_manager s) true).
Proof.
  intros Hrun Hsleep. revert s Hrun.
  induction fuel as [|fuel IH]; intros s Hrun; simpl; rewrite Hrun.
  - exists (world s). destruct s. simpl in *. subst. now rewrite app_nil_r.
  - unfold call. pose proof (Hsleep (world s)) as Hs.
    destruct (time_sleep (world s)) as [r x1]. simpl in Hs. subst r.
    destruct (IH (set_world x1 (add_event EvSleep s)) Hrun) as [x Hloop].
    rewrite Hloop. exists x. engine_simpl. now rewrite <- app_assoc.
Qed.

Lemma stop_keeps_links s :
  order_manager (snd (stop s)) = order_manager s /\
  xt_trader (snd (stop s)) = xt_trader s.
Proof.
  destruct s as [x t xt om r].
  unfold stop, bind, log, modify, call, get, ret. engine_simpl.
  destruct (on_stop x) as [[[]|e] x1]; engine_simpl; [|now split].
  destruct xt; engine_simpl; [|now split].
  now destruct (trader_stop x1) as [[[]|e] x2].
Qed.

Lemma keep_alive_keeps_links fuel s :
  order_manager (run_state (keep_alive fuel s)) = order_manager s /\
  xt_trader (run_state (keep_alive fuel s)) = xt_trader s.
Proof.
  revert s. induction fuel as [|fuel IH]; intros s; simpl;
    destruct (running s); try (now split).
  unfold call. destruct (time_sleep (world s)) as [[[|]|e] x1].
  - pose proof (stop_keeps_links (set_world x1 (add_event EvSleep s))) as Hstop.
    destruct (stop _) as [r s2]. exact Hstop.
  - destruct (IH (set_world x1 (add_event EvSleep s))) as [Hom Hxt].
    now rewrite Hom, Hxt.
  - now split.
Qed.

Lemma keep_alive_waiting_runs fuel s s' :
  keep_alive fuel s = Waiting s' -> running s' = true.
Proof.
  revert s. induction fuel as [|fuel IH]; intros s; simpl;
    destruct (running s) eqn:Hrun; try discriminate.
  - intros [= <-]. exact Hrun.
  - destruct (call EvSleep time_sleep s) as [[[|]|e] s1];
      [| apply IH | discriminate].
    destruct (stop s1) as [r s2]. discriminate.
Qed.

Lemma start_setup_keeps_links s :
  xt_trader s = true ->
  order_manager (snd (start_setup cfg s)) = order_manager s /\
  xt_trader (snd (start_setup cfg s)) = true.
Proof.
  intros Hxt. unfold start_setup.
  erewrite bind_ok by reflexivity. rewrite Hxt.
  erewrite bind_ok by reflexivity. change (negb true) with false. cbv iota.
  erewrite bind_ok by reflexivity. erewrite bind_ok by reflexivity.
  unfold bind.
  match goal with |- context [@for_each ?T ?A ?l ?b ?st] =>
    assert (Hloop : emits_only (fun _ => true) (@for_each T A l b));
      [ apply emits_only_for_each; intros symbol; emits_tac
      | destruct (Hloop st) as (x & evs & Hst & _);
        destruct (@for_each T A l b st) as [[[]|e] s1] ]
  end; simpl in Hst; subst s1; simpl; now rewrite Hxt.
Qed.

(** [start] on an engine that holds a trader object keeps the trader and
    the order manager as they are. *)
Lemma start_keeps_links fuel s :
  xt_trader s = true ->
  order_manager (run_state (start cfg fuel s)) = order_manager s /\
  xt_trader (run_state (start cfg fuel s)) = true.
Proof.
  intros Hxt. destruct (start_setup_keeps_links s Hxt) as [Hom Hxt1].
  unfold start. destruct (start_setup cfg s) as [[[|]|e] s1];
    simpl in Hom, Hxt1; simpl; try (now split).
  destruct (keep_alive_keeps_links fuel s1) as [Hom2 Hxt2].
  now rewrite Hom2, Hxt2.
Qed.

Lemma init_flags (x : X) :
  running (snd (init x)) = false /\
  xt_trader (snd (init x)) = false /\
  order_manager (snd (init x)) = false.
Proof.
  unfold init, bind, log, modify, call. engine_simpl.
  now destruct (on_init x) as [[[]|e] x1].
Qed.

Lemma start_waiting_runs fuel s s' :
  start cfg fuel s = Waiting s' -> running s' = true.
Proof.
  unfold start. destruct (start_setup cfg s) as [[[|]|e] s1]; try discriminate.
  apply keep_alive_waiting_runs.
Qed.

End Lifecycle.

(** ** The runner script *)

(** The string tests agree with the minute of the day on every reading of
    a 24-hour clock (checked on all 1440 of them). *)
Lemma clock_table (hour minute : nat) :
  (hour < 24)%nat -> (minute < 60)%nat -> clock_tests_agree hour minute = true.
Proof.
  intros Hh Hm.
  assert (Hall : forallb (fun h => forallb (clock_tests_agree h) (seq 0 60))
                         (seq 0 24) = true) by (vm_compute; reflexivity).
  rewrite forallb_forall in Hall.
  specialize (Hall hour). rewrite in_seq in Hall.
  assert (Hrow := Hall ltac:(lia)). rewrite forallb_forall in Hrow.
  apply Hrow. rewrite in_seq. lia.
Qed.

Lemma clock_facts (hour minute : nat) :
  (hour < 24)%nat -> (minute < 60)%nat ->
  let t := minute_of_day hour minute in
  let current_time := strftime_HM hour minute in
  (in_market_hours current_time = true <-> trading_minute t) /\
  (String.ltb current_time MARKET_OPEN_MORNING = true <-> (t < 570)%nat) /\
  (String.ltb MARKET_CLOSE_MORNING current_time
   && String.ltb current_time MARKET_OPEN_AFTERNOON = true <->
   (690 < t < 780)%nat) /\
  (String.ltb MARKET_CLOSE_AFTERNOON current_time = true <-> (900 < t)%nat).
Proof.
  intros Hh Hm t current_time.
  pose proof (clock_table hour minute Hh Hm) as Htab.
  unfold clock_tests_agree in Htab. fold t current_time in Htab.
  apply andb_prop in Htab as [Htab H4]. apply andb_prop in Htab as [Htab H3].
  apply andb_prop in Htab as [H1 H2].
  apply Bool.eqb_prop in H1, H2, H3, H4. rewrite H1, H2, H3, H4.
  unfold trading_minute.
  rewrite orb_true_iff, !andb_true_iff, !Nat.leb_le, !Nat.ltb_lt.
  repeat split; tauto.
Qed.

(** X14. [is_market_hours] compares the formatted time "HH:MM" as
    strings; on every reading of a 24-hour clock this is the same as
    asking whether the minute of the day lies in 09:30-11:30 or
    13:00-15:00, both ends included. Outside these hours one of the three
    waiting cases of [wait_for_market_open] applies: before 09:30, strictly
    between 11:30 and 13:00, or after 15:00. *)
Theorem market_hours_by_minute (hour minute : nat) :
  (hour < 24)%nat -> (minute < 60)%nat ->
  let current_time := strftime_HM hour minute in
  (in_market_hours current_time = true <->
   trading_minute (minute_of_day hour minute)) /\
  (in_market_hours current_time = false ->
   String.ltb current_time MARKET_OPEN_MORNING = true \/
   String.ltb MARKET_CLOSE_MORNING current_time
   && String.ltb current_time MARKET_OPEN_AFTERNOON = true \/
   String.ltb MARKET_CLOSE_AFTERNOON current_time = true).
Proof.
  intros Hh Hm current_time.
  destruct (clock_facts hour minute Hh Hm) as (Hopen & Hearly & Hlunch & Hlate).
  fold current_time in Hopen, Hearly, Hlunch, Hlate.
  split; [exact Hopen|]. intros Hclosed.
  rewrite Hearly, Hlunch, Hlate.
  assert (Hnot : ~ trading_minute (minute_of_day hour minute)).
  { intros Ht. apply Hopen in Ht. congruence. }
  unfold trading_minute in Hnot. lia.
Qed.

Section RunnerFacts.
Context {X : Type} {collab : Collaborators X} {env : RunnerEnv X}.

(** X15. Whatever the clock does between two readings,
    [wait_for_market_open] answers [True] only right after a reading
    inside the trading hours and [False] only right after a reading later
    than 15:00, which it logs as "market closed"; the pauses it takes
    before that are of 30 or 60 seconds. *)
Theorem wait_for_market_open_answer (fuel : nat) (r r' : runner X) (b : bool) :
  (forall x, (fst (fst (datetime_now x)) < 24)%nat /\
             (snd (fst (datetime_now x)) < 60)%nat) ->
  wait_for_market_open fuel r = (Some b, r') ->
  exists log hour minute,
    r_log r' =
      r_log r ++ log ++
      (if b then [RNow hour minute]
       else [RNow hour minute; RLog Info RMsgClosed]) /\
    (if b then trading_minute (minute_of_day hour minute)
     else (900 < minute_of_day hour minute)%nat) /\
    Forall pause_ok log.
Proof.
  intros Hvalid. revert r.
  induction fuel as [|fuel IH]; intros r Hwait; [discriminate|].
  cbn [wait_for_market_open] in Hwait. unfold is_market_hours, now_HM in Hwait.
  pose proof (Hvalid (r_world r)) as [Hh1 Hm1].
  destruct (datetime_now (r_world r)) as [[h1 m1] x1]. simpl in Hh1, Hm1.
  destruct (clock_facts h1 m1 Hh1 Hm1) as (Hopen & _).
  destruct (in_market_hours (strftime_HM h1 m1)) eqn:Hin.
  { injection Hwait as <- <-. exists [], h1, m1.
    split; [reflexivity|]. split; [now apply Hopen | constructor]. }
  cbn [r_world r_log] in Hwait.
  pose proof (Hvalid x1) as [Hh2 Hm2].
  destruct (datetime_now x1) as [[h2 m2] x2]. simpl in Hh2, Hm2.
  destruct (clock_facts h2 m2 Hh2 Hm2) as (_ & _ & _ & Hlate).
  destruct (String.ltb (strftime_HM h2 m2) MARKET_OPEN_MORNING).
  { apply IH in Hwait as (log & h & m & Hlog & Hb & Hp).
    exists ([RNow h1 m1; RNow h2 m2;
             RLog Info (RMsgNotOpenYet (strftime_HM h2 m2) 30); RSleep 30] ++ log),
           h, m.
    split; [rewrite Hlog; simpl; now rewrite <- !app_assoc|].
    split; [exact Hb|]. repeat (constructor; [simpl; auto|]). exact Hp. }
  destruct (String.ltb MARKET_CLOSE_MORNING (strftime_HM h2 m2)
            && String.ltb (strftime_HM h2 m2) MARKET_OPEN_AFTERNOON).
  { apply IH in Hwait as (log & h & m & Hlog & Hb & Hp).
    exists ([RNow h1 m1; RNow h2 m2;
             RLog Info (RMsgLunchBreak (strftime_HM h2 m2) 60); RSleep 60] ++ log),
           h, m.
    split; [rewrite Hlog; simpl; now rewrite <- !app_assoc|].
    split; [exact Hb|]. repeat (constructor; [simpl; auto|]). exact Hp. }
  destruct (String.ltb MARKET_CLOSE_AFTERNOON (strftime_HM h2 m2)) eqn:Hafter.
  - injection Hwait as <- <-. exists [RNow h1 m1], h2, m2.
    split; [simpl; now rewrite <- !app_assoc|].
    split; [now apply Hlate | repeat constructor].
  - apply IH in Hwait as (log & h & m & Hlog & Hb & Hp).
    exists ([RNow h1 m1; RNow h2 m2] ++ log), h, m.
    split; [rewrite Hlog; simpl; now rewrite <- !app_assoc|].
    split; [exact Hb|]. repeat (constructor; [simpl; auto|]). exact Hp.
Qed.

(** X16. However [main] ends once the engine exists - through
    [finally] or with the engine in its keep-alive loop - an engine that
    is marked running holds a trader and an order manager: the script
    calls [start()] only after [connect()] answered [True], so it never
    reaches the state in which the engine runs without a connection. *)
Theorem main_never_runs_unconnected (wait_fuel run_fuel : nat) (x : X) :
  match main wait_fuel run_fuel x with
  | StillRunning _ s =>
      running s = true /\ xt_trader s = true /\ order_manager s = true
  | SessionEnded _ s =>
      running s = true -> xt_trader s = true /\ order_manager s = true
  | _ => True
  end.
Proof.
  unfold main.
  destruct (wait_for_market_open wait_fuel _) as [[[|]|] r]; try exact I.
  destruct (new_strategy _ _ _ _) as [[u|e] x1]; try exact I.
  pose proof (init_flags x1) as (Hrun0 & Hxt0 & Hom0).
  destruct (init x1) as [[u'|e] s0]; try exact I. simpl in Hrun0, Hxt0, Hom0.
  pose proof (connect_outcome runner_config s0) as (Hrun1 & Htrue & _).
  destruct (connect runner_config s0) as [[[|]|e] s1]; simpl in Hrun1, Htrue.
  - destruct (Htrue eq_refl) as [Hxt1 Hom1].
    pose proof (start_keeps_links runner_config run_fuel s1 Hxt1) as [Hom2 Hxt2].
    pose proof (start_waiting_runs runner_config run_fuel s1) as Hwaiting.
    destruct (start runner_config run_fuel s1) as [[[]|e] s2 | s2];
      simpl in Hom2, Hxt2.
    + intros _. split; congruence.
    + intros _. split; congruence.
    + split; [now apply Hwaiting | split; congruence].
  - intros Hr. congruence.
  - intros Hr. congruence.
Qed.

End RunnerFacts.

(** ** Runs of the engine against the scripted collaborators *)

(** Discharges the leading premises of [H] by evaluation. *)
Ltac run_premises H :=
  repeat match type of H with
         | ?P -> _ =>
             let HP := fresh "HP" in
             assert (HP : P) by reflexivity; specialize (H HP); clear HP
         end.

Module Runs.
Import Script.

(** *** The decision handler *)

Lemma hold_has_no_effect_run :
  eq_str (VStr "hold") "hold" = true /\
  handle_signal "510050.SH" (VStr "hold") (VFloat 3) (connected (book 301 [] []))
  = (Ok tt, connected (book 301 [] [])).
Proof.
  split; [reflexivity|].
  apply (hold_has_no_effect "510050.SH" (VStr "hold") (VFloat 3)). reflexivity.
Defined.

Lemma other_signal_run :
  let s := connected (book 301 [Position "510050.SH" 250] []) in
  handle_signal "510050.SH" (VStr "short") (VFloat 3) s =
    (Ok tt, after_reads "510050.SH" (VStr "short") (world s) (world s) s) /\
  orders (events_since s
            (snd (handle_signal "510050.SH" (VStr "short") (VFloat 3) s))) = [].
Proof.
  intros s.
  pose proof (other_signal_reads_then_decides "510050.SH" (VStr "short")
                (VFloat 3) s (positions (world s)) (account (world s))
                (world s) (world s)) as H.
  run_premises H. destruct H as [_ Hother]. run_premises Hother.
  destruct Hother as (Hrun & _ & Horders).
  split; [exact Hrun | exact Horders].
Defined.

(** An unknown signal on an engine that never connected: the read of the
    positions fails, and still no order is placed. *)
Lemma unrecognized_no_order_run :
  exists evs,
    trace (snd (handle_signal "510050.SH" (VStr "short") (VFloat 3)
                  (fresh (book 301 [] [])))) =
    trace (fresh (book 301 [] [])) ++ evs /\
    orders evs = [].
Proof.
  apply (unrecognized_no_order "510050.SH" (VStr "short") (VFloat 3)
           (fresh (book 301 [] []))); reflexivity.
Defined.

(** Buy success of the spec: price 3.00, cash 301.00, cost 300.00. *)
Lemma buy_with_enough_cash_run :
  let s := connected (book 301 [] []) in
  let s' := snd (handle_signal "510050.SH" (VStr "buy") (VFloat 3) s) in
  cost_of (NFloat 3) = NFloat 300 /\
  strictly_greater (NFloat 301) (NFloat 300) /\
  orders (events_since s s') = [EvBuy "510050.SH" (VFloat 3) 100 "LiveStrategy"].
Proof.
  intros s s'. split; [reflexivity|]. split; [reflexivity|].
  pose proof (buy_iff_cash_exceeds_cost "510050.SH" (VStr "buy") (VFloat 3) s
                [] (account (world s)) (world s) (world s) (NFloat 3))
    as H.
  run_premises H. destruct H as (_ & Hiff & _).
  apply Hiff. reflexivity.
Defined.

(** Cash equal to the cost: no order. *)
Example buy_with_cash_equal_to_cost :
  let s := connected (book 300 [] []) in
  events_since s (snd (handle_signal "510050.SH" (VStr "buy") (VFloat 3) s)) =
  [Log Info (MsgSignal "510050.SH" (VStr "buy")); EvGetPositions; EvGetAsset;
   Log Warning (MsgInsufficientCash "510050.SH" (NFloat 300) (VFloat 300))].
Proof. reflexivity. Qed.

(** Buy guard of the spec: price 3.00, cash 250.00. *)
Example buy_with_too_little_cash :
  let s := connected (book 250 [] []) in
  orders (events_since s
            (snd (handle_signal "510050.SH" (VStr "buy") (VFloat 3) s))) = [].
Proof. reflexivity. Qed.


Example sell_without_position :
  let s := connected (book 0 [Position "510300.SH" 250] []) in
  events_since s (snd (handle_signal "510050.SH" (VStr "sell") (VFloat 3) s)) =
  [Log Info (MsgSignal "510050.SH" (VStr "sell")); EvGetPositions; EvGetAsset;
   Log Warning (MsgNoPosition "510050.SH")].
Proof. reflexivity. Qed.

(** *** The market-data handler *)

(** A latest bar of three fields is skipped with a warning. *)
Lemma short_bar_skipped_run :
  let payload := VList [VTuple [VInt 1700000000000; VFloat 3; VFloat 3]] in
  let s := connected (book 301 [] [Ok (VStr "buy")]) in
  malformed payload = true /\
  exists logs,
    handle_update cfg "510050.SH" payload s = (Ok tt, add_events logs s) /\
    Forall (fun e => is_log e = true) logs /\
    filter is_on_bar logs = [].
Proof.
  intros payload s. split; [reflexivity|].
  pose proof (malformed_payload_is_skipped cfg "510050.SH" payload s) as H.
  run_premises H. destruct H as (_ & Hrun & _). exact Hrun.
Defined.

Example short_bar_warning :
  let s := connected (book 301 [] [Ok (VStr "buy")]) in
  handle_update cfg "510050.SH"
    (VList [VTuple [VInt 1700000000000; VFloat 3; VFloat 3]]) s =
  (Ok tt, add_events [Log Warning (MsgInvalidBarLength "510050.SH" 3)] s).
Proof. reflexivity. Qed.

Example unknown_shapes_skipped :
  let s := connected (book 301 [] [Ok (VStr "buy")]) in
  on_market_data cfg
    [("510050.SH", VNone); ("510050.SH", VInt 0); ("510050.SH", VList []);
     ("510050.SH", VStr "n/a"); ("510050.SH", VTuple []);
     ("510050.SH", VList [VInt 7])] s =
  (Ok tt,
   add_events
     ([Log Debug (MsgSkipEmpty "510050.SH" VNone);
       Log Debug (MsgSkipEmpty "510050.SH" (VInt 0));
       Log Debug (MsgSkipEmpty "510050.SH" (VList []));
       Log Warning (MsgUnknownFormat "510050.SH" (VStr "n/a"));
       Log Warning (MsgUnknownFormat "510050.SH" (VTuple []))]
      ++ failure_log "510050.SH" (VList [VInt 7]) TypeError) s).
Proof. reflexivity. Qed.

(** The spec's two timestamps: 1,700,000,000,000 is divided by 1000,
    1,700,000,000 is taken as it is. *)
Lemma list_timestamp_run :
  let s := connected (book 301 [] []) in
  num_gtb (NInt 1700000000000) (NFloat 1e10) = true /\
  fst (normalize "510050.SH" (bars (VInt 1700000000000)) s) =
    Ok (Some (Bar (DateTime (NFloat 1700000000)) (VFloat 3.25) (VFloat 3.5)
                  (VFloat 3) (VFloat 3) (VFloat 12000), VFloat 3)).
Proof.
  intros s. split; [reflexivity|].
  pose proof (list_timestamp_unit_by_strict_magnitude (X := t) "510050.SH"
                [VList [VInt 1700000000000; VFloat 3.25; VFloat 3.5; VFloat 3;
                        VFloat 3; VInt 12000]]
                (VList [VInt 1700000000000; VFloat 3.25; VFloat 3.5; VFloat 3;
                        VFloat 3; VInt 12000])
                6 (VInt 1700000000000) (NInt 1700000000000)
                3.25 3.5 3 3 12000 (DateTime (NFloat 1700000000)) s) as H.
  run_premises H. destruct H as [Hrun _].
  unfold bars. rewrite Hrun. reflexivity.
Defined.

Example list_timestamp_in_seconds :
  let s := connected (book 301 [] []) in
  fst (normalize "510050.SH" (bars (VInt 1700000000)) s) =
    Ok (Some (Bar (DateTime (NInt 1700000000)) (VFloat 3.25) (VFloat 3.5)
                  (VFloat 3) (VFloat 3) (VFloat 12000), VFloat 3)).
Proof. reflexivity. Qed.

(** The timestamp exactly 1e10 is not divided by 1000: the bar carries the
    datetime of 10,000,000,000 seconds, not that of 10,000,000 seconds. *)
Lemma timestamp_exactly_1e10_read_as_seconds :
  let timestamp := VInt 10000000000 in
  let s := connected (book 301 [] []) in
  eq_int (VFloat 1e10) 10000000000 = true /\
  fst (normalize "510050.SH" (bars timestamp) s) =
    Ok (Some (Bar (DateTime (NInt 10000000000)) (VFloat 3.25) (VFloat 3.5)
                  (VFloat 3) (VFloat 3) (VFloat 12000), VFloat 3)) /\
  read_as_seconds timestamp = Ok (DateTime (NInt 10000000000)) /\
  read_as_millis timestamp = Ok (DateTime (NFloat 10000000)) /\
  DateTime (NInt 10000000000) <> DateTime (NFloat 10000000).
Proof.
  intros timestamp s. repeat (split; [reflexivity|]). discriminate.
Qed.

(** A tick whose [time] lies below 1e10 is still divided by 1000. *)
Lemma tick_time_run :
  let s := connected (book 301 [] []) in
  fst (normalize "510050.SH" (tick (VInt 1700000000)) s) =
    Ok (Some (Bar (DateTime (NFloat 1700000)) VNone VNone VNone (VFloat 3) VNone,
              VFloat 3)).
Proof.
  intros s.
  pose proof (tick_time_always_read_as_millis (X := t) "510050.SH"
                [(VStr "lastPrice", VFloat 3); (VStr "time", VInt 1700000000)]
                1700000000 (world s)
                (DateTime (NFloat 1700000)) s) as H.
  run_premises H. destruct H as [H _]. unfold tick. rewrite H. reflexivity.
Defined.

(** A tick without [time]: the clock reads 1,700,000,000 seconds, the
    default is that reading in milliseconds, and the bar is dated by the
    clock. *)
Example tick_without_time :
  let s := connected (book 301 [] []) in
  normalize "510050.SH" (VDict [(VStr "lastPrice", VFloat 3)]) s =
    (Ok (Some (Bar (DateTime (NFloat 1700000000)) VNone VNone VNone (VFloat 3)
                   VNone,
               VFloat 3)),
     add_events [EvTime] s).
Proof. reflexivity. Qed.

(** C6, where the code departs from it. The timestamp 1,700,000,000 (epoch
    seconds, below 1e10) arrives once in a list payload and once as the
    [time] of a tick. The list branch makes the magnitude test and reads it
    as seconds; the tick branch makes no test and divides it by 1000, so
    the tick's bar is dated 1,700,000 seconds after the epoch: the rule is
    not applied uniformly to both shapes. *)
Theorem tick_time_below_1e10_not_read_as_seconds :
  let time := VInt 1700000000 in
  let s := connected (book 301 [] []) in
  val_gt_num time (NFloat 1e10) = Ok false /\
  fst (normalize "510050.SH" (bars time) s) =
    Ok (Some (Bar (DateTime (NInt 1700000000)) (VFloat 3.25) (VFloat 3.5)
                  (VFloat 3) (VFloat 3) (VFloat 12000), VFloat 3)) /\
  fst (normalize "510050.SH" (tick time) s) =
    Ok (Some (Bar (DateTime (NFloat 1700000)) VNone VNone VNone (VFloat 3) VNone,
              VFloat 3)) /\
  read_as_millis time = Ok (DateTime (NFloat 1700000)) /\
  read_as_seconds time = Ok (DateTime (NInt 1700000000)) /\
  DateTime (NFloat 1700000) <> DateTime (NInt 1700000000).
Proof.
  intros time s. repeat (split; [reflexivity|]). discriminate.
Qed.

(** The strategy raises on the first symbol's bar; the second symbol's bar
    still reaches the strategy and its buy signal becomes an order. *)
Lemma failed_update_is_isolated_run :
  let s := connected (book 301 [] [Raise (OtherError "boom"); Ok (VStr "buy")]) in
  let payload := bars (VInt 1700000000000) in
  let s1 := snd (process_update "510050.SH" payload s) in
  "510050.SH" ∈ symbols cfg2 /\
  process_update "510050.SH" payload s = (Raise (OtherError "boom"), s1) /\
  on_market_data cfg2 [("510050.SH", payload); ("510300.SH", payload)] s =
    on_market_data cfg2 [("510300.SH", payload)]
      (add_events (failure_log "510050.SH" payload (OtherError "boom")) s1) /\
  orders (trace (snd (on_market_data cfg2
            [("510050.SH", payload); ("510300.SH", payload)] s))) =
    [EvBuy "510300.SH" (VFloat 3) 100 "LiveStrategy"].
Proof.
  intros s payload s1.
  assert (Hin : "510050.SH" ∈ symbols cfg2)
    by (apply (bool_decide_unpack _); vm_compute; exact I).
  split; [exact Hin|]. split; [reflexivity|].
  pose proof (failed_update_is_isolated cfg2 [] [("510300.SH", payload)]
                "510050.SH" payload (OtherError "boom") s s1 Hin) as H.
  run_premises H. destruct H as [Hrun _].
  split; [exact Hrun | reflexivity].
Defined.

(** *** The session *)

Lemma stop_twice_run :
  exists s2,
    (stop >> stop) (connected (book 301 [] [])) = (Ok tt, s2) /\
    running s2 = false /\
    filter is_on_stop (events_since (connected (book 301 [] [])) s2) =
      [EvOnStop; EvOnStop].
Proof.
  apply (stop_twice_invokes_on_stop_twice (connected (book 301 [] [])));
    intros x; reflexivity.
Defined.

(** Two calls of [stop()]: no error, and [on_stop] has run twice, not once. *)
Lemma second_stop_invokes_on_stop_again :
  let s := connected (book 301 [] []) in
  let s2 := snd ((stop >> stop) s) in
  fst ((stop >> stop) s) = Ok tt /\
  events_since s s2 =
    [Log Info MsgStopping; EvOnStop; EvTraderStop;
     Log Info MsgStopping; EvOnStop; EvTraderStop] /\
  length (filter is_on_stop (events_since s s2)) <> 1%nat.
Proof.
  intros s s2. split; [reflexivity|]. split; [reflexivity|]. discriminate.
Qed.

Lemma connect_refused_run :
  fst (connect cfg (fresh refusing)) = Ok false <-> 1 <> 0.
Proof.
  apply (connect_false_iff_nonzero cfg (fresh refusing) 1700000000 1700000000 1
           refusing refusing refusing refusing); reflexivity.
Defined.

Lemma start_refused_run :
  start cfg 5 (fresh refusing) =
    Returned (Ok tt) (after_failed_connect cfg refusing 1700000000 1 (fresh refusing)) /\
  running (after_failed_connect cfg refusing 1700000000 1 (fresh refusing)) = false /\
  filter is_gateway
    (events_since (fresh refusing)
       (after_failed_connect cfg refusing 1700000000 1 (fresh refusing))) =
    [EvNewTrader "userdata_mini" 1700000000; EvTraderStart; EvTraderConnect].
Proof.
  apply (start_returns_on_failed_connect cfg 5 (fresh refusing) 1700000000
           1700000000 1 refusing refusing refusing refusing);
    (reflexivity || lia).
Defined.

(** C8, where the code departs from it. The gateway refuses the connection
    (result code 1). The [start] call that made the attempt returns with
    the engine not running; but the trader object stays assigned, so a
    second [start] skips [connect], sets the running flag and subscribes to
    market data, with no order manager and without any further connection
    attempt: the engine is running after a failed connect. *)
Theorem start_after_failed_connect_runs :
  let s0 := fresh refusing in
  let s1 := after_failed_connect cfg refusing 1700000000 1 s0 in
  start cfg 2 s0 = Returned (Ok tt) s1 /\
  running s1 = false /\
  xt_trader s1 = true /\
  start cfg 2 s1 =
    Waiting
      (Engine refusing
         (trace s1 ++ [Log Info MsgStarting;
                       Log Info (MsgSubscribing "510050.SH" "5m");
                       EvSubscribeQuote "510050.SH" "5m"; EvSleep; EvSleep])
         true false true).
Proof.
  intros s0 s1. repeat (split; [reflexivity|]). reflexivity.
Qed.

(** A gateway that accepts: [start] reaches the keep-alive loop, running. *)
Example start_connects_and_runs :
  start cfg 1 (fresh (book 301 [] [])) =
  Waiting
    (Engine (book 301 [] [])
       [Log Info (MsgConnecting "40688525"); EvTime;
        EvNewTrader "userdata_mini" 1700000000; EvTraderStart; EvTraderConnect;
        Log Info MsgConnected; EvTraderSubscribe "40688525";
        Log Info MsgStarting; Log Info (MsgSubscribing "510050.SH" "5m");
        EvSubscribeQuote "510050.SH" "5m"; EvSleep]
       true true true).
Proof. reflexivity. Qed.

End Runs.

(** ** Further runs *)

Module Cases.
Import Script Day.

(** An engine that never connected receives a bar and a buy signal: the
    read of the positions fails on the missing order manager, the failure
    is logged, and the gateway is not reached. *)
Lemma unconnected_engine_run :
  let s := fresh (book 301 [] [Ok (VStr "buy")]) in
  let data := [("510050.SH", bars (VInt 1700000000000))] in
  order_manager s = false /\
  filter is_gateway (events_since s (snd (on_market_data cfg data s))) = [] /\
  orders (events_since s (snd (on_market_data cfg data s))) = [].
Proof.
  intros s data. split; [reflexivity|].
  apply (unconnected_engine_makes_no_gateway_call cfg data s). reflexivity.
Defined.

Lemma holding_strategy_run :
  let s := connected (book 301 [Position "510050.SH" 250] []) in
  let data := [("510050.SH", bars (VInt 1700000000000));
               ("510050.SH", tick (VInt 1700000000000))] in
  filter is_gateway
    (events_since s
       (snd (on_market_data (collab := Stage.holding) cfg data s))) = [].
Proof.
  intros s data.
  apply (holding_strategy_makes_no_gateway_call (collab := Stage.holding)
           cfg data s).
  intros b x. reflexivity.
Defined.

(** A tick that carries no "lastPrice" at all. *)
Lemma tick_without_price_run :
  let d := [(VStr "time", VInt 1700000000000); (VStr "open", VFloat 3)] in
  let s := connected (book 301 [] [Ok (VStr "buy")]) in
  truthy (dict_get d "lastPrice") = false /\
  handle_update cfg "510050.SH" (VDict d) s = (Ok tt, s).
Proof.
  intros d s. split; [reflexivity|].
  apply (tick_without_price_is_dropped cfg "510050.SH" d s). reflexivity.
Defined.

Example tick_with_zero_price :
  let s := connected (book 301 [] [Ok (VStr "buy")]) in
  handle_update cfg "510050.SH" (VDict [(VStr "lastPrice", VFloat 0)]) s
  = (Ok tt, s).
Proof. reflexivity. Qed.

(** Two positions under one code: the later one counts. *)
Example position_map_duplicates :
  position_map [Position "510050.SH" 100; Position "510300.SH" 7;
                Position "510050.SH" 250] !! "510050.SH" = Some 250.
Proof. reflexivity. Qed.

Lemma start_with_trader_run :
  exists s',
    start cfg2 3 (connected (book 301 [] [])) = keep_alive 3 s' /\
    running s' = true /\
    order_manager s' = true /\
    filter is_gateway (events_since (connected (book 301 [] [])) s') =
      [EvSubscribeQuote "510050.SH" "5m"; EvSubscribeQuote "510300.SH" "5m"].
Proof.
  apply (start_with_trader_subscribes_each_symbol cfg2 3
           (connected (book 301 [] []))).
  - reflexivity.
  - intros symbol per x. reflexivity.
Defined.

Lemma failed_connect_run :
  let s := fresh refusing in
  let s1 := after_failed_connect cfg refusing 1700000000 1 s in
  connect cfg s = (Ok false, s1) /\
  xt_trader s1 = true /\
  order_manager s1 = false /\
  running s1 = false /\
  exists s2,
    start cfg 2 s1 = keep_alive 2 s2 /\
    running s2 = true /\
    order_manager s2 = false /\
    filter is_gateway (events_since s1 s2) = [EvSubscribeQuote "510050.SH" "5m"].
Proof.
  intros s s1. split; [reflexivity|].
  apply (failed_connect_leaves_trader_assigned cfg 2 s s1).
  - reflexivity.
  - intros symbol per x. reflexivity.
Defined.

Lemma connect_then_start_run :
  let s := fresh (book 301 [] []) in
  let s1 := snd (connect cfg s) in
  connect cfg s = (Ok true, s1) /\
  start cfg 4 s1 = start cfg 4 s /\
  xt_trader s1 = true /\
  order_manager s1 = true.
Proof.
  intros s s1. split; [reflexivity|].
  apply (connect_then_start_is_start cfg 4 s s1); reflexivity.
Defined.

Lemma start_never_returns_running_run :
  let s := fresh refusing in
  let s' := after_failed_connect cfg refusing 1700000000 1 s in
  start cfg 5 s = Returned (Ok tt) s' /\ running s' = false.
Proof.
  intros s s'. split; [reflexivity|].
  apply (start_never_returns_running cfg 5 s s'); reflexivity.
Defined.

Lemma keep_alive_only_sleeps_run :
  let s := Engine (book 301 [] []) [] true true true in
  exists x,
    keep_alive 3 s =
    Waiting (Engine x ([] ++ [EvSleep; EvSleep; EvSleep]) true true true).
Proof.
  intros s.
  apply (keep_alive_only_sleeps 3 s); [reflexivity | intros x; reflexivity].
Defined.

(** [on_stop] raises: the exception leaves [stop], the engine is marked as
    not running and the trader is not stopped. *)
Example stop_with_failing_strategy :
  let s := Engine (book 301 [] []) [] true true true in
  stop (collab := Stage.failing_stop) s =
  (Raise (OtherError "on_stop"),
   Engine (book 301 [] []) [Log Info MsgStopping; EvOnStop] true true false).
Proof. reflexivity. Qed.

(** 09:30, the first trading minute, and 11:31, the first of the break. *)
Lemma market_hours_run :
  (9 < 24)%nat /\ (30 < 60)%nat /\
  (in_market_hours (strftime_HM 9 30) = true <->
   trading_minute (minute_of_day 9 30)).
Proof.
  split; [lia|]. split; [lia|].
  apply (market_hours_by_minute 9 30); lia.
Defined.

Example market_hours_edges :
  map (fun hm => in_market_hours (strftime_HM (fst hm) (snd hm)))
      [(9, 29); (9, 30); (11, 30); (11, 31); (12, 59); (13, 0); (15, 0);
       (15, 1)]%nat =
  [false; true; true; false; false; true; true; false].
Proof. reflexivity. Qed.

(** The clock shows 09:00 twice and then 09:31: one pause of 30 seconds,
    then the market is open. *)
Lemma wait_for_market_open_run :
  let r := Runner (Day.Make [(9, 0); (9, 0); (9, 31)]%nat (book 301 [] [])) [] in
  let r' := snd (wait_for_market_open 5 r) in
  wait_for_market_open 5 r = (Some true, r') /\
  exists log hour minute,
    r_log r' = r_log r ++ log ++ [RNow hour minute] /\
    trading_minute (minute_of_day hour minute) /\
    Forall pause_ok log.
Proof.
  intros r r'. split; [reflexivity|].
  apply (wait_for_market_open_answer 5 r r' true); [|reflexivity].
  intros [[|[hour minute] rest] k]; simpl; split;
    try lia; apply Nat.mod_upper_bound; lia.
Defined.

Example wait_for_market_open_log :
  r_log (snd (wait_for_market_open 5
                (Runner (Day.Make [(9, 0); (9, 0); (9, 31)]%nat (book 301 [] []))
                        []))) =
  [RNow 9 0; RNow 9 0; RLog Info (RMsgNotOpenYet "09:00" 30); RSleep 30;
   RNow 9 31].
Proof. reflexivity. Qed.

(** The market is open and the gateway refuses the connection: [main]
    logs the failure, never calls [start], and ends with the engine not
    running. *)
Example main_with_refused_connection :
  main 3 3 (Day.Make [(10, 0)]%nat refusing) =
  SessionEnded
    (banner ++ [RNow 10 0; RLog Info RMsgMarketOpen;
                RNewStrategy RSI_PERIOD RSI_OVERBOUGHT RSI_OVERSOLD;
                RLog Info RMsgConnecting; RLog Error RMsgConnectFailed;
                RLog Info RMsgEnded])
    (Engine (Day.Make [] refusing)
       [Log Info MsgInitStrategy; EvOnInit;
        Log Info (MsgConnecting ACCOUNT_ID); EvTime;
        EvNewTrader MINI_QMT_PATH 1700000000; EvTraderStart; EvTraderConnect;
        Log Error (MsgConnectionFailed 1)]
       true false false).
Proof. reflexivity. Qed.

(** After 15:00 [main] returns before it builds the strategy or the
    engine. *)
Example main_after_close :
  main 3 3 (Day.Make [(15, 30); (15, 30)]%nat refusing) =
  MarketClosed
    (Runner (Day.Make [] refusing)
       (banner ++ [RNow 15 30; RNow 15 30; RLog Info RMsgClosed])).
Proof. reflexivity. Qed.

(** A tick quotes its price as text and the strategy says buy. *)
Lemma buy_with_text_price_run :
  let s := connected (book 301 [] []) in
  handle_signal "510050.SH" (VStr "buy") (VStr "3.0") s =
    (Raise TypeError,
     after_reads "510050.SH" (VStr "buy") (world s) (world s) s).
Proof.
  intros s.
  apply (buy_with_non_numeric_price_raises "510050.SH" (VStr "buy") (VStr "3.0")
           s (positions (world s)) (account (world s)) (world s) (world s));
    reflexivity.
Defined.

(** The same text price with a sell signal goes out as it came in. *)
Example sell_with_text_price :
  let s := connected (book 301 [Position "510050.SH" 250] []) in
  orders (events_since s
            (snd (handle_signal "510050.SH" (VStr "sell") (VStr "3.0") s))) =
  [EvSell "510050.SH" (VStr "3.0") 250 "LiveStrategy"].
Proof. reflexivity. Qed.

Lemma bar_without_timestamp_run :
  let s := connected (book 301 [] [Ok (VStr "buy")]) in
  "510050.SH" ∈ symbols cfg /\
  handle_update cfg "510050.SH" (bars VNone) s =
    (Ok tt, add_events (failure_log "510050.SH" (bars VNone) TypeError) s).
Proof.
  intros s.
  assert (Hin : "510050.SH" ∈ symbols cfg)
    by (apply (bool_decide_unpack _); vm_compute; exact I).
  split; [exact Hin|].
  apply (bar_with_non_numeric_timestamp_is_rejected cfg "510050.SH"
           [VList [VNone; VFloat 3.25; VFloat 3.5; VFloat 3; VFloat 3;
                   VInt 12000]]
           (VList [VNone; VFloat 3.25; VFloat 3.5; VFloat 3; VFloat 3;
                   VInt 12000])
           6 VNone s); (exact Hin || reflexivity || lia).
Defined.

(** Text in place of a bar: its length is counted in characters, so two
    characters are a short bar, whatever their size in bytes; six
    characters pass the length test and fail at the timestamp. *)
Example characters_not_bytes :
  String.length "停牌" = 6%nat /\
  py_len (VStr "停牌") = Ok 2 /\
  py_index (VStr "停牌") 1 = Ok (VStr "牌") /\
  py_index (VStr "停牌") 2 = Raise IndexError.
Proof. repeat split. Qed.

Example short_text_bar_is_warned :
  let s := connected (book 301 [] [Ok (VStr "buy")]) in
  handle_update cfg "510050.SH" (VList [VStr "停牌"]) s =
    (Ok tt, add_events [Log Warning (MsgInvalidBarLength "510050.SH" 2)] s).
Proof. reflexivity. Qed.

Example long_text_bar_is_rejected :
  let s := connected (book 301 [] [Ok (VStr "buy")]) in
  handle_update cfg "510050.SH" (VList [VStr "停牌停牌停牌"]) s =
    (Ok tt,
     add_events
       (failure_log "510050.SH" (VList [VStr "停牌停牌停牌"]) TypeError) s).
Proof. reflexivity. Qed.

End Cases.
